(** * Notebook utilities of the SageMaker build/train/deploy workshop

    A shallow embedding of [04_deploy_model/notebook_utilities.py] and the
    properties its specification states about it.

    The module has three functions.  Two of them are thin wrappers around
    the SageMaker control plane (listing and describing training jobs);
    the third compares the installed [sagemaker] SDK version with a pinned
    one, shells out to [pip] when the installed one is older and asks the
    Jupyter kernel to restart.

    Python values that cross the API boundary are modelled as a small
    universe of dynamically typed values ([pyval]); exceptions are an
    inductive type; every interaction with the outside world is recorded
    as an [event], so that "how many times" and "in which order" are
    statements about the list of events a run produces. *)

From Stdlib Require Import ZArith Ascii String List Lia.
From stdpp Require Import base option list strings gmap fin_maps.

Import ListNotations.
#[local] Open Scope string_scope.
#[local] Open Scope list_scope.
#[local] Open Scope Z_scope.
#[local] Set Warnings "-register-all".

(* ===================================================================== *)
(** ** Python built-ins used by the module *)
(* ===================================================================== *)

Module Py.

(** What a library call can raise, identified by the class name and the
    message the library chose ([ClientError], [NoRegionError],
    [OSError], ...). *)
Record foreign_exn : Type := { fe_class : string; fe_message : string }.

(** Exceptions.  [Exception] is what a [raise Exception(msg)] statement
    of the module itself builds; the next five are raised by the
    interpreter's own operations (subscript, [len], [int], attribute
    access); [Foreign] wraps whatever a library call ([boto3], [os])
    raised. *)
Inductive exn : Type :=
| Exception (msg : string)
| KeyError (key : string)
| IndexError
| TypeError (what : string)
| ValueError (literal : string)
| AttributeError (attr : string)
| Foreign (e : foreign_exn).

(** Dynamically typed values.  A [datetime] is kept as its POSIX
    timestamp. *)
Inductive pyval : Type :=
| PNone
| PBool (b : bool)
| PInt (z : Z)
| PStr (s : string)
| PDatetime (epoch : Z)
| PList (l : list pyval)
| PDict (d : gmap string pyval).

(** *** [str.split(sep)] for a one-character separator

    Every occurrence of the separator cuts; empty fields are kept, and
    the empty string splits into one empty field. *)
Fixpoint split_on (sep : ascii) (s : string) : list string :=
  match s with
  | EmptyString => [EmptyString]
  | String c rest =>
      if Ascii.eqb c sep then EmptyString :: split_on sep rest
      else match split_on sep rest with
           | field :: fields => String c field :: fields
           | [] => [String c EmptyString]
           end
  end.

(** *** [int(str)] in base ten

    Follows [PyLong_FromString]: leading white space, an optional sign,
    then decimal digits in which single underscores may separate digits,
    then trailing white space, and nothing else.  Version strings are
    ASCII; characters outside ASCII are treated as neither digits nor
    white space, and the interpreter's cap on the number of digits is
    left out. *)
Definition is_space (c : ascii) : bool :=
  let n := nat_of_ascii c in
  ((9 <=? n) && (n <=? 13))%nat || (n =? 32)%nat.

Definition digit_value (c : ascii) : option Z :=
  let n := nat_of_ascii c in
  if ((48 <=? n) && (n <=? 57))%nat then Some (Z.of_nat n - 48) else None.

Fixpoint skip_spaces (s : string) : string :=
  match s with
  | String c rest => if is_space c then skip_spaces rest else s
  | EmptyString => EmptyString
  end.

Definition take_sign (s : string) : Z * string :=
  match s with
  | String "+" rest => (1, rest)
  | String "-" rest => (-1, rest)
  | _ => (1, s)
  end.

(** Scans digits and underscores.  [prev_underscore] tells whether the
    character just consumed was an underscore: two in a row, or one at
    the end of the run, is an error.  Returns the value read and the
    unread suffix. *)
Fixpoint scan_digits (prev_underscore : bool) (acc : Z) (s : string)
  : option (Z * string) :=
  match s with
  | String c rest =>
      match digit_value c with
      | Some d => scan_digits false (10 * acc + d) rest
      | None =>
          if Ascii.eqb c "_"
          then (if prev_underscore then None else scan_digits true acc rest)
          else (if prev_underscore then None else Some (acc, s))
      end
  | EmptyString => if prev_underscore then None else Some (acc, EmptyString)
  end.

Definition parse_int (s : string) : option Z :=
  let '(sign, body) := take_sign (skip_spaces s) in
  match body with
  | String c _ =>
      match digit_value c with
      | None => None
      | Some _ =>
          match scan_digits false 0 body with
          | Some (n, rest) =>
              match skip_spaces rest with
              | EmptyString => Some (sign * n)
              | String _ _ => None
              end
          | None => None
          end
      end
  | EmptyString => None
  end.

Definition int (s : string) : exn + Z :=
  match parse_int s with
  | Some n => inr n
  | None => inl (ValueError s)
  end.

(** [tuple(map(int, fields))]: [map] is lazy and [tuple] pulls from it
    left to right, so the first field [int] rejects is the one reported. *)
Fixpoint tuple_map_int (fields : list string) : exn + list Z :=
  match fields with
  | [] => inr []
  | f :: rest =>
      match int f with
      | inl e => inl e
      | inr n =>
          match tuple_map_int rest with
          | inl e => inl e
          | inr ns => inr (n :: ns)
          end
      end
  end.

(** *** Rich comparison of tuples of integers

    [tuplerichcompare]: skip the common prefix of equal items; if one
    tuple ends first the lengths are compared, otherwise the first
    differing items are. *)
Inductive cmp_op : Type := Lt | Le | Eq | Ne | Gt | Ge.

Definition cmp_Z (op : cmp_op) (x y : Z) : bool :=
  match op with
  | Lt => x <? y
  | Le => x <=? y
  | Eq => x =? y
  | Ne => negb (x =? y)
  | Gt => x >? y
  | Ge => x >=? y
  end.

Fixpoint tuple_richcompare (op : cmp_op) (v w : list Z) : bool :=
  match v, w with
  | x :: v', y :: w' =>
      if x =? y then tuple_richcompare op v' w' else cmp_Z op x y
  | _, _ => cmp_Z op (Z.of_nat (length v)) (Z.of_nat (length w))
  end.

(** *** Subscripts and [len] *)

(** [v[key]] for a string key. *)
Definition getitem_key (v : pyval) (key : string) : exn + pyval :=
  match v with
  | PDict d =>
      match d !! key with
      | Some x => inr x
      | None => inl (KeyError key)
      end
  | PList _ => inl (TypeError "list indices must be integers or slices, not str")
  | PStr _ => inl (TypeError "string indices must be integers")
  | _ => inl (TypeError "object is not subscriptable")
  end.

(** [len(v)]. *)
Definition len (v : pyval) : exn + Z :=
  match v with
  | PList l => inr (Z.of_nat (length l))
  | PStr s => inr (Z.of_nat (String.length s))
  | PDict d => inr (Z.of_nat (size d))
  | _ => inl (TypeError "object has no len()")
  end.

(** [v[i]] for an integer index; a negative index counts from the end.
    The dictionaries of this model have string keys only, so an integer
    key is never found. *)
Definition getitem_index (v : pyval) (i : Z) : exn + pyval :=
  match v with
  | PList l =>
      let n := Z.of_nat (length l) in
      let j := if i <? 0 then i + n else i in
      if (0 <=? j) && (j <? n)
      then match l !! Z.to_nat j with
           | Some x => inr x
           | None => inl IndexError
           end
      else inl IndexError
  | PStr s =>
      let n := Z.of_nat (String.length s) in
      let j := if i <? 0 then i + n else i in
      if (0 <=? j) && (j <? n)
      then match String.get (Z.to_nat j) s with
           | Some c => inr (PStr (String c EmptyString))
           | None => inl IndexError
           end
      else inl IndexError
  | PDict _ => inl (KeyError "<int>")
  | _ => inl (TypeError "object is not subscriptable")
  end.

(** *** [template.format(a, b, ...)] with automatic field numbering

    Each [{}] takes the next argument; the templates of the module use no
    other replacement field and no doubled braces.  Running out of
    arguments is an [IndexError]. *)
Fixpoint format (template : string) (args : list string) : exn + string :=
  match template with
  | String "{" (String "}" rest) =>
      match args with
      | a :: args' =>
          match format rest args' with
          | inr s => inr (a +:+ s)
          | inl e => inl e
          end
      | [] => inl IndexError
      end
  | String c rest =>
      match format rest args with
      | inr s => inr (String c s)
      | inl e => inl e
      end
  | EmptyString => inr EmptyString
  end.

End Py.

Import Py.

(* ===================================================================== *)
(** ** The outside world *)
(* ===================================================================== *)

(** The keyword arguments [list_training_jobs] is called with. *)
Record ListTrainingJobsRequest : Type := {
  NameContains : string;
  SortBy : string;
  SortOrder : string;
  StatusEquals : string
}.

(** A [boto3] client for the [sagemaker] service: the two operations the
    module calls.  Each returns the response dictionary or raises. *)
Record Client : Type := {
  list_training_jobs : ListTrainingJobsRequest -> foreign_exn + pyval;
  describe_training_job : string -> foreign_exn + pyval
}.

(** The child process behind the pipe [os.popen] returns: the text
    [read()] yields, and the status the child exits with. *)
Record Process : Type := {
  pipe_output : string;
  exit_status : Z
}.

(** Everything the module reads from its surroundings. *)
Record Env : Type := {
  boto3_client : string -> foreign_exn + Client;
  sagemaker_version : string;            (* sagemaker.__version__ *)
  sys_executable : string;               (* sys.executable, as format renders it *)
  os_popen : string -> foreign_exn + Process;
  has_kernel : bool    (* does IPython.Application.instance() have a kernel *)
}.

(** What the module does to its surroundings, in order. *)
Inductive event : Type :=
| Boto3Client (service : string)
| ListTrainingJobs (req : ListTrainingJobsRequest)
| DescribeTrainingJob (job_name : string)
| Print (text : string)
| Popen (cmd : string)
| DoShutdown (restart : bool).

(* ===================================================================== *)
(** ** Computations: a result or an exception, and the events so far *)
(* ===================================================================== *)

Definition M (A : Type) : Type := (exn + A) * list event.

Definition ret {A} (a : A) : M A := (inr a, []).

Definition raise {A} (e : exn) : M A := (inl e, []).

Definition bind {A B} (m : M A) (k : A -> M B) : M B :=
  match m with
  | (inl e, t) => (inl e, t)
  | (inr a, t) => let '(r, t') := k a in (r, t ++ t')
  end.

(** A pure interpreter operation that may raise. *)
Definition lift {A} (r : exn + A) : M A := (r, []).

(** An effect with no result. *)
Definition emit (ev : event) : M unit := (inr tt, [ev]).

(** A library call: the event is recorded whether the call returns or
    raises. *)
Definition call {A} (ev : event) (r : foreign_exn + A) : M A :=
  (match r with inl e => inl (Foreign e) | inr a => inr a end, [ev]).

Declare Scope py_scope.
Delimit Scope py_scope with py.
Notation "x <- m ;; k" := (bind m (fun x => k))
  (at level 100, m at next level, right associativity) : py_scope.
Notation "m ;; k" := (bind m (fun _ => k))
  (at level 100, right associativity) : py_scope.
#[local] Open Scope py_scope.

Definition result {A} (m : M A) : exn + A := fst m.
Definition trace {A} (m : M A) : list event := snd m.

(* ===================================================================== *)
(** ** notebook_utilities.py *)
(* ===================================================================== *)

Definition get_latest_training_job_name (env : Env) (base_job_name : string)
  : M pyval :=
  client <- call (Boto3Client "sagemaker") (boto3_client env "sagemaker") ;;
  let req := {| NameContains := base_job_name;
                SortBy := "CreationTime";
                SortOrder := "Descending";
                StatusEquals := "Completed" |} in
  response <- call (ListTrainingJobs req) (list_training_jobs client req) ;;
  summaries <- lift (getitem_key response "TrainingJobSummaries") ;;
  n <- lift (len summaries) ;;
  if n >? 0 then
    summaries <- lift (getitem_key response "TrainingJobSummaries") ;;
    first <- lift (getitem_index summaries 0) ;;
    lift (getitem_key first "TrainingJobName")
  else
    raise (Exception "Training job not found.").

Definition get_training_job_s3_model_artifacts (env : Env) (job_name : string)
  : M pyval :=
  client <- call (Boto3Client "sagemaker") (boto3_client env "sagemaker") ;;
  response <- call (DescribeTrainingJob job_name)
                   (describe_training_job client job_name) ;;
  model_artifacts <- lift (getitem_key response "ModelArtifacts") ;;
  s3_model_artifacts <- lift (getitem_key model_artifacts "S3ModelArtifacts") ;;
  ret s3_model_artifacts.

Definition versiontuple (v : string) : exn + list Z :=
  tuple_map_int (split_on "." v).

(** The expression [versiontuple(v) <op> versiontuple(w)]: the left
    operand is evaluated first. *)
Definition compare_versions (op : cmp_op) (v w : string) : exn + bool :=
  match versiontuple v with
  | inl e => inl e
  | inr a =>
      match versiontuple w with
      | inl e => inl e
      | inr b => inr (tuple_richcompare op a b)
      end
  end.

Definition required_version : string := "2.90.0".

Definition outdated_template : string :=
  "This workshop was tested with sagemaker version {} but you are using {}. Installing required version...".

Definition install_template : string :=
  "{} -m pip install -U sagemaker=={}".

Definition restarting_message : string :=
  "Restarting kernel after installing new dependencies...".

Definition warning_message : string :=
  "WARNING: Kernel restarting...please wait 30 seconds before moving to the next cell!".

(** [IPython.Application.instance().kernel]: the attribute exists only
    when the running application is a kernel application. *)
Definition get_kernel (env : Env) : M unit :=
  if has_kernel env then ret tt else raise (AttributeError "kernel").

(** The first [if] of [check_dependencies] with the assignments before
    it; its value is [kernel_restart_required] as the second [if] finds
    it. *)
Definition upgrade_if_outdated (env : Env) : M bool :=
  let kernel_restart_required := false in
  outdated <- lift (compare_versions Lt (sagemaker_version env)
                      required_version) ;;
  if outdated : bool then
    message <- lift (format outdated_template
                       [required_version; sagemaker_version env]) ;;
    emit (Print message) ;;
    cmd <- lift (format install_template
                   [sys_executable env; required_version]) ;;
    stream <- call (Popen cmd) (os_popen env cmd) ;;
    let output := pipe_output stream in
    emit (Print output) ;;
    ret true
  else
    ret kernel_restart_required.

(** The second [if] of [check_dependencies]. *)
Definition restart_if_required (env : Env) (kernel_restart_required : bool)
  : M unit :=
  if kernel_restart_required then
    emit (Print restarting_message) ;;
    get_kernel env ;;
    emit (DoShutdown true) ;;
    emit (Print warning_message)
  else
    ret tt.

Definition check_dependencies (env : Env) : M unit :=
  kernel_restart_required <- upgrade_if_outdated env ;;
  restart_if_required env kernel_restart_required.

(** *** Reading a run *)

(** The commands handed to [os.popen], in order. *)
Definition installer_calls (t : list event) : list string :=
  omap (fun ev => match ev with Popen cmd => Some cmd | _ => None end) t.

(** The arguments of the [do_shutdown] calls, in order. *)
Definition restart_signals (t : list event) : list bool :=
  omap (fun ev => match ev with DoShutdown r => Some r | _ => None end) t.

(** The requests sent to the listing operation, in order. *)
Definition listing_calls (t : list event) : list ListTrainingJobsRequest :=
  omap (fun ev => match ev with ListTrainingJobs r => Some r | _ => None end) t.

(** The command line the upgrade runs. *)
Definition install_command (env : Env) : string :=
  sys_executable env +:+ " -m pip install -U sagemaker==" +:+ required_version.

(** The line printed before the upgrade. *)
Definition outdated_message (env : Env) : string :=
  "This workshop was tested with sagemaker version " +:+ required_version +:+
  " but you are using " +:+ sagemaker_version env +:+
  ". Installing required version...".

(** A printed line that announces itself as a warning. *)
Definition is_warning (text : string) : bool := String.prefix "WARNING" text.

(** Does a warning line come out before the first shutdown-with-restart
    signal?  [warned] tells whether one has been seen so far. *)
Fixpoint warned_before_shutdown (warned : bool) (t : list event) : bool :=
  match t with
  | Print text :: rest => warned_before_shutdown (warned || is_warning text) rest
  | DoShutdown true :: _ => warned
  | _ :: rest => warned_before_shutdown warned rest
  | [] => false
  end.

(** Is the exception one that a [raise] statement of the module built? *)
Definition raised_by_module (e : exn) : bool :=
  match e with
  | Exception _ => true
  | _ => false
  end.

(** What [get_latest_training_job_name] makes of a listing response. *)
Definition first_job_name (response : pyval) : exn + pyval :=
  match getitem_key response "TrainingJobSummaries" with
  | inl e => inl e
  | inr summaries =>
      match len summaries with
      | inl e => inl e
      | inr n =>
          if n >? 0 then
            match getitem_index summaries 0 with
            | inl e => inl e
            | inr first => getitem_key first "TrainingJobName"
            end
          else inl (Exception "Training job not found.")
      end
  end.

(* ===================================================================== *)
(** ** The shape of the service's responses *)
(* ===================================================================== *)

(** One entry of [TrainingJobSummaries], as the data model has it: the
    job's name, its creation time and its status. *)
Record TrainingJobSummary : Type := {
  TrainingJobName : string;
  CreationTime : Z;
  TrainingJobStatus : string
}.

Definition summary_to_py (j : TrainingJobSummary) : pyval :=
  PDict (<["TrainingJobName" := PStr (TrainingJobName j)]>
         (<["CreationTime" := PDatetime (CreationTime j)]>
          (<["TrainingJobStatus" := PStr (TrainingJobStatus j)]> ∅))).

Definition listing_response (jobs : list TrainingJobSummary) : pyval :=
  PDict (<["TrainingJobSummaries" := PList (map summary_to_py jobs)]> ∅).

Definition description_response (job_name uri : string) : pyval :=
  PDict (<["TrainingJobName" := PStr job_name]>
         (<["ModelArtifacts" :=
              PDict (<["S3ModelArtifacts" := PStr uri]> ∅)]> ∅)).

(** Reading a response back.  Keys other than the ones named are
    ignored, so a response may carry more than the data model lists. *)
Definition decode_summary (v : pyval) : option TrainingJobSummary :=
  match v with
  | PDict d =>
      match d !! "TrainingJobName", d !! "CreationTime",
            d !! "TrainingJobStatus" with
      | Some (PStr name), Some (PDatetime t), Some (PStr status) =>
          Some {| TrainingJobName := name;
                  CreationTime := t;
                  TrainingJobStatus := status |}
      | _, _, _ => None
      end
  | _ => None
  end.

Definition decode_listing (response : pyval)
  : option (list TrainingJobSummary) :=
  match response with
  | PDict d =>
      match d !! "TrainingJobSummaries" with
      | Some (PList vs) => mapM decode_summary vs
      | _ => None
      end
  | _ => None
  end.

(** The nested artifact-location field of a describe response. *)
Definition artifact_location (response : pyval) : option pyval :=
  match response with
  | PDict d =>
      match d !! "ModelArtifacts" with
      | Some (PDict a) => a !! "S3ModelArtifacts"
      | _ => None
      end
  | _ => None
  end.

(** The order [SortBy='CreationTime', SortOrder='Descending'] asks for. *)
Fixpoint descending (times : list Z) : bool :=
  match times with
  | t :: (u :: _) as rest => (u <=? t) && descending rest
  | _ => true
  end.

(** The request the lookup sends for a given name filter. *)
Definition lookup_request (base_job_name : string) : ListTrainingJobsRequest :=
  {| NameContains := base_job_name;
     SortBy := "CreationTime";
     SortOrder := "Descending";
     StatusEquals := "Completed" |}.

(* ===================================================================== *)
(** ** An in-memory stand-in for the service *)
(* ===================================================================== *)

(** A client over a fixed list of jobs.  It filters by name and status
    and orders by creation time the way the request says, which is what
    the hosted service documents.  It serves to run the module on
    concrete data. *)
Module InMemory.

Fixpoint contains (needle hay : string) : bool :=
  String.prefix needle hay ||
  match hay with
  | String _ rest => contains needle rest
  | EmptyString => false
  end.

Fixpoint insert_desc (j : TrainingJobSummary) (l : list TrainingJobSummary)
  : list TrainingJobSummary :=
  match l with
  | [] => [j]
  | k :: rest =>
      if CreationTime k <=? CreationTime j then j :: l
      else k :: insert_desc j rest
  end.

Definition sort_desc (l : list TrainingJobSummary) : list TrainingJobSummary :=
  foldr insert_desc [] l.

Definition matches (req : ListTrainingJobsRequest) (j : TrainingJobSummary)
  : bool :=
  contains (NameContains req) (TrainingJobName j) &&
  String.eqb (TrainingJobStatus j) (StatusEquals req).

Definition listing (store : list TrainingJobSummary)
  (req : ListTrainingJobsRequest) : list TrainingJobSummary :=
  let hits := List.filter (matches req) store in
  if String.eqb (SortOrder req) "Descending" then sort_desc hits
  else rev (sort_desc hits).

Definition artifact_uri (job_name : string) : string :=
  "s3://models/" +:+ job_name +:+ "/output/model.tar.gz".

Definition describe (store : list TrainingJobSummary) (job_name : string)
  : foreign_exn + pyval :=
  if existsb (fun j => String.eqb (TrainingJobName j) job_name) store
  then inr (description_response job_name (artifact_uri job_name))
  else inl {| fe_class := "ClientError";
              fe_message := "Requested resource not found." |}.

Definition client (store : list TrainingJobSummary) : Client :=
  {| list_training_jobs := fun req => inr (listing_response (listing store req));
     describe_training_job := describe store |}.

Definition process (output : string) (status : Z) : Process :=
  {| pipe_output := output; exit_status := status |}.

(** A notebook host: the given jobs behind [boto3], the given SDK
    version installed, a [pip] that prints [output] and exits with
    [status], and a kernel or not. *)
Definition env (store : list TrainingJobSummary) (version : string)
  (output : string) (status : Z) (kernel : bool) : Env :=
  {| boto3_client := fun _ => inr (client store);
     sagemaker_version := version;
     sys_executable := "/usr/bin/python3";
     os_popen := fun _ => inr (process output status);
     has_kernel := kernel |}.

Definition churn_jobs : list TrainingJobSummary :=
  [ {| TrainingJobName := "churn-predict-2024-01-01";
       CreationTime := 1704067200;
       TrainingJobStatus := "Completed" |};
    {| TrainingJobName := "churn-predict-2024-02-01";
       CreationTime := 1706745600;
       TrainingJobStatus := "Completed" |};
    {| TrainingJobName := "churn-predict-2024-03-01";
       CreationTime := 1709251200;
       TrainingJobStatus := "Failed" |};
    {| TrainingJobName := "fraud-detect-2024-04-01";
       CreationTime := 1711929600;
       TrainingJobStatus := "Completed" |} ].

End InMemory.

(* ===================================================================== *)
(** ** Hosts with canned answers *)
(* ===================================================================== *)

(** A client and a host that answer every call with a fixed answer,
    a response or an error, whatever the request.  They serve to run
    the module where the service misbehaves. *)
Module Canned.

Definition client (listing describing : foreign_exn + pyval) : Client :=
  {| list_training_jobs := fun _ => listing;
     describe_training_job := fun _ => describing |}.

Definition env (c : foreign_exn + Client) (version : string)
  (pipe : foreign_exn + Process) (kernel : bool) : Env :=
  {| boto3_client := fun _ => c;
     sagemaker_version := version;
     sys_executable := "/usr/bin/python3";
     os_popen := fun _ => pipe;
     has_kernel := kernel |}.

Definition no_region : foreign_exn :=
  {| fe_class := "NoRegionError"; fe_message := "You must specify a region." |}.

Definition throttled : foreign_exn :=
  {| fe_class := "ClientError"; fe_message := "ThrottlingException" |}.

Definition no_shell : foreign_exn :=
  {| fe_class := "OSError"; fe_message := "Cannot allocate memory" |}.

(** A host whose service answers the listing with [listing]. *)
Definition listing_env (listing : foreign_exn + pyval) : Env :=
  env (inr (client listing (inl throttled))) "2.90.0"
      (inr (InMemory.process "" 0)) true.

(** A host whose service answers the describe call with [describing]. *)
Definition describing_env (describing : foreign_exn + pyval) : Env :=
  env (inr (client (inl throttled) describing)) "2.90.0"
      (inr (InMemory.process "" 0)) true.

(** A host with the given SDK version and a working [pip] and kernel. *)
Definition version_env (version : string) : Env :=
  env (inl no_region) version (inr (InMemory.process "done" 0)) true.

End Canned.

(** *** The shell behind [os.popen] *)

(** A child process as the shell runs it: what it writes to its standard
    output, what it writes to its standard error, and the status it
    exits with. *)
Record Child : Type := {
  child_stdout : string;
  child_stderr : string;
  child_status : Z
}.

(** [os.popen(cmd)] in its default mode ["r"] starts the command with
    its standard output alone connected to the pipe; the standard error
    stays on the parent's own, and the status is only reported by
    [close()]. *)
Definition popen_pipe (c : Child) : Process :=
  {| pipe_output := child_stdout c; exit_status := child_status c |}.

Definition shell_popen (spawn : string -> foreign_exn + Child) (cmd : string)
  : foreign_exn + Process :=
  match spawn cmd with
  | inl e => inl e
  | inr c => inr (popen_pipe c)
  end.

(** The same host with [spawn] as the shell that [os.popen] uses. *)
Definition with_shell (spawn : string -> foreign_exn + Child) (env : Env)
  : Env :=
  {| boto3_client := boto3_client env;
     sagemaker_version := sagemaker_version env;
     sys_executable := sys_executable env;
     os_popen := shell_popen spawn;
     has_kernel := has_kernel env |}.

(** The same shell, except that every child exits with [status] and has
    written [err] to its standard error. *)
Definition with_status_and_stderr (status : Z) (err : string)
  (spawn : string -> foreign_exn + Child) (cmd : string)
  : foreign_exn + Child :=
  match spawn cmd with
  | inl e => inl e
  | inr c => inr {| child_stdout := child_stdout c;
                    child_stderr := err;
                    child_status := status |}
  end.

(** A [pip] that finds nothing to install: one line on each stream and
    exit status 1. *)
Definition failing_pip (cmd : string) : foreign_exn + Child :=
  inr {| child_stdout := "Collecting sagemaker==2.90.0";
         child_stderr := "ERROR: No matching distribution found for sagemaker==2.90.0";
         child_status := 1 |}.

(** *** More ways to read a run and a version string *)

(** The lines handed to [print], in order. *)
Definition printed (t : list event) : list string :=
  omap (fun ev => match ev with Print text => Some text | _ => None end) t.

(** Is the event a call to the SageMaker SDK? *)
Definition is_service_call (ev : event) : bool :=
  match ev with
  | Boto3Client _ | ListTrainingJobs _ | DescribeTrainingJob _ => true
  | _ => false
  end.

(** The number of occurrences of a character in a string. *)
Fixpoint count_char (c : ascii) (s : string) : nat :=
  match s with
  | EmptyString => 0
  | String d rest => (if Ascii.eqb d c then 1 else 0) + count_char c rest
  end.

(** The outcome of [t < (2, 90, 0)] spelled out field by field: no
    field at all, or a major below 2, or major 2 with no minor or with a
    minor below 90, or [(2, 90)] with nothing after it or with a
    negative third field. *)
Definition older_than_2_90_0 (t : list Z) : bool :=
  match t with
  | [] => true
  | major :: rest =>
      (major <? 2) ||
      ((major =? 2) &&
       match rest with
       | [] => true
       | minor :: rest' =>
           (minor <? 90) ||
           ((minor =? 90) &&
            match rest' with
            | [] => true
            | patch :: _ => patch <? 0
            end)
       end)
  end.

(** [sep.join(fields)] for a one-character separator. *)
Fixpoint join_with (sep : ascii) (fields : list string) : string :=
  match fields with
  | [] => EmptyString
  | [f] => f
  | f :: rest => f +:+ String sep (join_with sep rest)
  end.


(* ===================================================================== *)
(** ** Running the model on concrete data *)
(* ===================================================================== *)

Example split_on_version : split_on "." "2.90.0" = ["2"; "90"; "0"].
Proof. reflexivity. Qed.

Example split_on_empty_fields : split_on "." "1..2." = ["1"; ""; "2"; ""].
Proof. reflexivity. Qed.

Example int_plain : int "90" = inr 90.
Proof. reflexivity. Qed.

Example int_padded_signed : int "  -1_000 " = inr (-1000).
Proof. reflexivity. Qed.

Example int_rejects_suffix : int "0rc1" = inl (ValueError "0rc1").
Proof. reflexivity. Qed.

Example int_rejects_empty : int "" = inl (ValueError "").
Proof. reflexivity. Qed.

Example int_rejects_double_underscore : int "1__0" = inl (ValueError "1__0").
Proof. reflexivity. Qed.

Example format_install :
  format install_template ["python"; "1.2"]
  = inr "python -m pip install -U sagemaker==1.2".
Proof. reflexivity. Qed.

Lemma format_install_template exe v :
  format install_template [exe; v]
  = inr (exe +:+ " -m pip install -U sagemaker==" +:+ v +:+ "").
Proof. reflexivity. Qed.

Lemma format_outdated_template r v :
  format outdated_template [r; v]
  = inr ("This workshop was tested with sagemaker version " +:+ r +:+
         " but you are using " +:+ v +:+ ". Installing required version...").
Proof. reflexivity. Qed.

(* ===================================================================== *)
(** ** Version strings *)
(* ===================================================================== *)

Section Versions.

Lemma split_on_nonempty sep s : split_on sep s <> [].
Proof. destruct s as [|c s]; simpl; [|destruct (Ascii.eqb c sep), (split_on sep s)]; discriminate. Qed.

(** Appending [".0"] appends one field ["0"]. *)
Lemma split_on_dot_zero v :
  split_on "." (v +:+ ".0") = split_on "." v ++ ["0"].
Proof.
  induction v as [|c v IH]; [reflexivity|].
  change (String c v +:+ ".0") with (String c (v +:+ ".0")).
  simpl. rewrite IH.
  destruct (Ascii.eqb c "."); [reflexivity|].
  pose proof (split_on_nonempty "." v) as Hne.
  destruct (split_on "." v); [contradiction|reflexivity].
Qed.

Lemma tuple_map_int_snoc fields t f n :
  tuple_map_int fields = inr t ->
  int f = inr n ->
  tuple_map_int (fields ++ [f]) = inr (t ++ [n]).
Proof.
  revert t. induction fields as [|g fields IH]; intros t Ht Hf; simpl in *.
  - injection Ht as <-. rewrite Hf. reflexivity.
  - destruct (int g) as [e|m]; [discriminate|].
    destruct (tuple_map_int fields) as [e|ns]; [discriminate|].
    injection Ht as <-. rewrite (IH ns eq_refl Hf). reflexivity.
Qed.

(** The first field [int] rejects decides the outcome. *)
Lemma tuple_map_int_rejects fields :
  Exists (fun f => parse_int f = None) fields ->
  exists bad, In bad fields /\ parse_int bad = None /\
              tuple_map_int fields = inl (ValueError bad).
Proof.
  induction fields as [|f fields IH]; intros HE.
  - inversion HE.
  - simpl. unfold int. destruct (parse_int f) as [n|] eqn:Hf.
    + assert (Exists (fun f => parse_int f = None) fields) as HE'.
      { inversion HE; subst; [congruence|assumption]. }
      destruct (IH HE') as (bad & Hin & Hbad & ->).
      exists bad. auto.
    + exists f. auto.
Qed.

Lemma tuple_richcompare_refl_lt t : tuple_richcompare Lt t t = false.
Proof.
  induction t as [|x t IH]; [reflexivity|].
  simpl. rewrite Z.eqb_refl. exact IH.
Qed.

Lemma tuple_richcompare_refl_eq t : tuple_richcompare Eq t t = true.
Proof.
  induction t as [|x t IH]; [reflexivity|].
  simpl. rewrite Z.eqb_refl. exact IH.
Qed.

(** A tuple is strictly below any proper extension of itself. *)
Lemma tuple_richcompare_extension t x :
  tuple_richcompare Lt t (t ++ [x]) = true /\
  tuple_richcompare Gt (t ++ [x]) t = true /\
  tuple_richcompare Eq t (t ++ [x]) = false.
Proof.
  induction t as [|y t IH]; [repeat split; reflexivity|].
  simpl. rewrite Z.eqb_refl. exact IH.
Qed.

(** [>=] is the negation of [<] on tuples of integers. *)
Lemma tuple_richcompare_ge_lt a b :
  tuple_richcompare Ge a b = negb (tuple_richcompare Lt a b).
Proof.
  assert (forall x y, cmp_Z Ge x y = negb (cmp_Z Lt x y)) as Hc.
  { intros x y. simpl. rewrite Z.geb_leb, Z.ltb_antisym, negb_involutive.
    reflexivity. }
  revert b. induction a as [|x a IH]; intros [|y b]; simpl; try apply Hc.
  destruct (x =? y); [apply IH|apply Hc].
Qed.

Lemma compare_versions_ge_lt v w :
  compare_versions Ge v w = inr true ->
  compare_versions Lt v w = inr false.
Proof.
  unfold compare_versions.
  destruct (versiontuple v) as [e|a]; [discriminate|].
  destruct (versiontuple w) as [e|b]; [discriminate|].
  rewrite tuple_richcompare_ge_lt.
  destruct (tuple_richcompare Lt a b); [discriminate|reflexivity].
Qed.

End Versions.

(** C3.  [versiontuple] splits on ["."] and maps [int] over the fields;
    the resulting tuples compare lexicographically, so that
    [versiontuple("2.90.0") < versiontuple("2.91.0")],
    [versiontuple("2.90.0") == versiontuple("2.90.0")] (equal, and not
    less), and [versiontuple("2.90.1") > versiontuple("2.90.0")]. *)
Theorem versiontuple_comparisons :
  (forall v, versiontuple v = tuple_map_int (split_on "." v)) /\
  versiontuple "2.90.0" = inr [2; 90; 0] /\
  versiontuple "2.91.0" = inr [2; 91; 0] /\
  versiontuple "2.90.1" = inr [2; 90; 1] /\
  compare_versions Lt "2.90.0" "2.91.0" = inr true /\
  compare_versions Eq "2.90.0" "2.90.0" = inr true /\
  compare_versions Lt "2.90.0" "2.90.0" = inr false /\
  compare_versions Gt "2.90.1" "2.90.0" = inr true.
Proof. repeat split; reflexivity. Qed.

(** C8.  One more trailing [".0"] makes a version strictly greater: for
    every version string [v] that [versiontuple] accepts,
    [versiontuple(v) < versiontuple(v + ".0")], the two are not equal,
    and [versiontuple(v + ".0") > versiontuple(v)]; in particular
    [versiontuple("2.9") < versiontuple("2.9.0")]. *)
Theorem trailing_zero_is_greater v t :
  versiontuple v = inr t ->
  versiontuple (v +:+ ".0") = inr (t ++ [0]) /\
  compare_versions Lt v (v +:+ ".0") = inr true /\
  compare_versions Eq v (v +:+ ".0") = inr false /\
  compare_versions Gt (v +:+ ".0") v = inr true /\
  compare_versions Lt "2.9" "2.9.0" = inr true.
Proof.
  intros Hv.
  assert (versiontuple (v +:+ ".0") = inr (t ++ [0])) as Hv0.
  { unfold versiontuple in *. rewrite split_on_dot_zero.
    apply tuple_map_int_snoc; [exact Hv|reflexivity]. }
  destruct (tuple_richcompare_extension t 0) as (Hlt & Hgt & Heq).
  unfold compare_versions. rewrite Hv, Hv0, Hlt, Hgt, Heq.
  repeat split; reflexivity.
Qed.

Lemma trailing_zero_is_greater_witness :
  versiontuple "2.9" = inr [2; 9] /\
  compare_versions Lt "2.9" ("2.9" +:+ ".0") = inr true.
Proof.
  split; [reflexivity|].
  exact (proj1 (proj2 (trailing_zero_is_greater "2.9" [2; 9] eq_refl))).
Defined.

(* ===================================================================== *)
(** ** The dependency check *)
(* ===================================================================== *)

Section DependencyCheck.

Variable env : Env.

Lemma compare_versions_propagates op v w e :
  versiontuple v = inl e -> compare_versions op v w = inl e.
Proof. intros H. unfold compare_versions. rewrite H. reflexivity. Qed.

Lemma upgrade_if_outdated_raises e :
  compare_versions Lt (sagemaker_version env) required_version = inl e ->
  upgrade_if_outdated env = (inl e, []).
Proof. intros H. unfold upgrade_if_outdated. rewrite H. reflexivity. Qed.

Lemma upgrade_if_outdated_current :
  compare_versions Lt (sagemaker_version env) required_version = inr false ->
  upgrade_if_outdated env = (inr false, []).
Proof. intros H. unfold upgrade_if_outdated. rewrite H. reflexivity. Qed.

Lemma upgrade_if_outdated_outdated :
  compare_versions Lt (sagemaker_version env) required_version = inr true ->
  upgrade_if_outdated env =
  match os_popen env (install_command env) with
  | inr p => (inr true, [Print (outdated_message env);
                         Popen (install_command env);
                         Print (pipe_output p)])
  | inl e => (inl (Foreign e), [Print (outdated_message env);
                                Popen (install_command env)])
  end.
Proof.
  intros H. unfold upgrade_if_outdated. rewrite H.
  rewrite format_outdated_template, format_install_template.
  change (sys_executable env +:+ " -m pip install -U sagemaker==" +:+
          required_version +:+ "") with (install_command env).
  cbn [lift bind emit call ret app fst snd].
  destruct (os_popen env (install_command env)); reflexivity.
Qed.

(** When the first [if] leaves [kernel_restart_required] set, the
    version was older and the pipe was opened. *)
Lemma restart_marked_required :
  result (upgrade_if_outdated env) = inr true ->
  exists p,
    compare_versions Lt (sagemaker_version env) required_version = inr true /\
    os_popen env (install_command env) = inr p /\
    upgrade_if_outdated env =
      (inr true, [Print (outdated_message env);
                  Popen (install_command env);
                  Print (pipe_output p)]).
Proof.
  destruct (compare_versions Lt (sagemaker_version env) required_version)
    as [e|[|]] eqn:Hc.
  - rewrite (upgrade_if_outdated_raises _ Hc). discriminate.
  - rewrite (upgrade_if_outdated_outdated Hc).
    destruct (os_popen env (install_command env)) as [e|p]; [discriminate|].
    intros _. exists p. auto.
  - rewrite (upgrade_if_outdated_current Hc). discriminate.
Qed.

Lemma restart_if_required_runs :
  restart_if_required env true =
  if has_kernel env
  then (inr tt, [Print restarting_message; DoShutdown true;
                 Print warning_message])
  else (inl (AttributeError "kernel"), [Print restarting_message]).
Proof.
  unfold restart_if_required, get_kernel.
  destruct (has_kernel env); reflexivity.
Qed.

Lemma check_dependencies_after_upgrade t :
  upgrade_if_outdated env = (inr true, t) ->
  check_dependencies env =
  if has_kernel env
  then (inr tt, t ++ [Print restarting_message; DoShutdown true;
                      Print warning_message])
  else (inl (AttributeError "kernel"), t ++ [Print restarting_message]).
Proof.
  intros H. unfold check_dependencies. rewrite H.
  cbn [bind]. rewrite restart_if_required_runs.
  destruct (has_kernel env); reflexivity.
Qed.

End DependencyCheck.

(** C7.  A version string with a field that [int] does not accept makes
    [versiontuple] fail with the [ValueError] of the first such field,
    and [check_dependencies] on a host whose installed version is that
    string ends with the same exception, before any effect: nothing in
    the function catches it. *)
Theorem malformed_version_propagates v :
  Exists (fun field => parse_int field = None) (split_on "." v) ->
  exists bad,
    In bad (split_on "." v) /\ parse_int bad = None /\
    versiontuple v = inl (ValueError bad) /\
    forall env, sagemaker_version env = v ->
      check_dependencies env = (inl (ValueError bad), []).
Proof.
  intros HE.
  destruct (tuple_map_int_rejects _ HE) as (bad & Hin & Hbad & Hv).
  exists bad. repeat split; try assumption.
  intros env <-.
  unfold check_dependencies.
  rewrite (upgrade_if_outdated_raises env _
             (compare_versions_propagates Lt _ required_version _ Hv)).
  reflexivity.
Qed.

Lemma malformed_version_propagates_witness :
  exists bad,
    In bad (split_on "." "2.90.0rc1") /\ parse_int bad = None /\
    versiontuple "2.90.0rc1" = inl (ValueError bad) /\
    forall env, sagemaker_version env = "2.90.0rc1" ->
      check_dependencies env = (inl (ValueError bad), []).
Proof.
  apply (malformed_version_propagates "2.90.0rc1").
  apply Exists_cons_tl, Exists_cons_tl, Exists_cons_hd.
  reflexivity.
Defined.

(** C5.  When the installed version is greater than or equal to the
    required one, [check_dependencies] returns without a single effect:
    no installer is run and no restart is signalled, so the package set
    and the kernel are as they were. *)
Theorem up_to_date_is_left_alone env :
  compare_versions Ge (sagemaker_version env) required_version = inr true ->
  check_dependencies env = (inr tt, []) /\
  installer_calls (trace (check_dependencies env)) = [] /\
  restart_signals (trace (check_dependencies env)) = [].
Proof.
  intros Hge.
  assert (check_dependencies env = (inr tt, [])) as Hrun.
  { unfold check_dependencies.
    rewrite (upgrade_if_outdated_current env (compare_versions_ge_lt _ _ Hge)).
    reflexivity. }
  rewrite Hrun. repeat split; reflexivity.
Qed.

Lemma up_to_date_is_left_alone_witness :
  check_dependencies (InMemory.env [] "2.91.0" "" 0 true) = (inr tt, []).
Proof.
  exact (proj1 (up_to_date_is_left_alone
                  (InMemory.env [] "2.91.0" "" 0 true) eq_refl)).
Defined.

(** C4.  When the installed version is strictly less than the required
    one, [check_dependencies] runs the installer exactly once, with the
    command [<sys.executable> -m pip install -U sagemaker==2.90.0]; and
    when the pipe opens and a kernel is there, the run is: the notice,
    the installer, its output, the restart notice, one
    [do_shutdown(True)] after the installer, and the closing warning. *)
Theorem outdated_installs_then_restarts env :
  compare_versions Lt (sagemaker_version env) required_version = inr true ->
  install_command env
    = sys_executable env +:+ " -m pip install -U sagemaker==2.90.0" /\
  installer_calls (trace (check_dependencies env)) = [install_command env] /\
  forall p,
    os_popen env (install_command env) = inr p ->
    has_kernel env = true ->
    check_dependencies env =
      (inr tt, [Print (outdated_message env);
                Popen (install_command env);
                Print (pipe_output p);
                Print restarting_message;
                DoShutdown true;
                Print warning_message]) /\
    restart_signals (trace (check_dependencies env)) = [true].
Proof.
  intros Hlt. split; [reflexivity|].
  pose proof (upgrade_if_outdated_outdated env Hlt) as Hup.
  split.
  - unfold check_dependencies. rewrite Hup.
    destruct (os_popen env (install_command env)) as [e|p]; [reflexivity|].
    cbn [bind]. rewrite restart_if_required_runs.
    destruct (has_kernel env); reflexivity.
  - intros p Hp Hk. rewrite Hp in Hup.
    rewrite (check_dependencies_after_upgrade env _ Hup), Hk.
    split; reflexivity.
Qed.

Lemma outdated_installs_then_restarts_witness :
  installer_calls
    (trace (check_dependencies
              (InMemory.env [] "2.89.1" "Successfully installed" 0 true)))
  = ["/usr/bin/python3 -m pip install -U sagemaker==2.90.0"].
Proof.
  exact (proj1 (proj2 (outdated_installs_then_restarts
                         (InMemory.env [] "2.89.1" "Successfully installed" 0 true)
                         eq_refl))).
Defined.

Example failing_pip_run :
  check_dependencies (with_shell failing_pip (Canned.version_env "2.89.1"))
  = (inr tt,
     [Print "This workshop was tested with sagemaker version 2.90.0 but you are using 2.89.1. Installing required version...";
      Popen "/usr/bin/python3 -m pip install -U sagemaker==2.90.0";
      Print "Collecting sagemaker==2.90.0";
      Print "Restarting kernel after installing new dependencies...";
      DoShutdown true;
      Print "WARNING: Kernel restarting...please wait 30 seconds before moving to the next cell!"]).
Proof. reflexivity. Qed.

(** C10 as stated does not hold, on two counts.  On a host with SDK
    2.89.1 where [os.popen] raises, the run is one in which the
    installed version is older, yet the restart is never marked
    required.  And on a host with SDK 2.89.1 whose [pip] writes an error
    to its standard error, no printed line carries that text: what is
    read and printed is the standard output, not the two streams
    combined. *)
Lemma installer_claim_fails :
  ~ (forall env,
       compare_versions Lt (sagemaker_version env) required_version = inr true ->
       result (upgrade_if_outdated env) = inr true) /\
  ~ (forall env spawn child,
       compare_versions Lt (sagemaker_version env) required_version = inr true ->
       spawn (install_command env) = inr child ->
       existsb (InMemory.contains (child_stderr child))
         (printed (trace (check_dependencies (with_shell spawn env)))) = true).
Proof.
  split; intros H.
  - specialize (H (Canned.env (inl Canned.no_region) "2.89.1"
                     (inl Canned.no_shell) true) eq_refl).
    discriminate H.
  - specialize (H (Canned.version_env "2.89.1") failing_pip _ eq_refl eq_refl).
    rewrite failing_pip_run in H. discriminate H.
Qed.

(** C10, amended.  When the installed version is older and [os.popen]
    returns a pipe, the restart is marked required and, a kernel being
    there, signalled, whatever status the installer exits with: the
    status is never looked at.  What is read from the pipe and printed
    is the installer's standard output, as it is; its standard error is
    not captured.  A shell that differs only in exit statuses and in
    what goes to standard error gives the very same run. *)
Theorem restart_whatever_the_installer_status env spawn child :
  compare_versions Lt (sagemaker_version env) required_version = inr true ->
  spawn (install_command env) = inr child ->
  result (upgrade_if_outdated (with_shell spawn env)) = inr true /\
  printed (trace (upgrade_if_outdated (with_shell spawn env)))
    = [outdated_message env; child_stdout child] /\
  (has_kernel env = true ->
   check_dependencies (with_shell spawn env)
     = (inr tt, [Print (outdated_message env); Popen (install_command env);
                 Print (child_stdout child); Print restarting_message;
                 DoShutdown true; Print warning_message])) /\
  forall status err,
    check_dependencies (with_shell (with_status_and_stderr status err spawn) env)
    = check_dependencies (with_shell spawn env).
Proof.
  intros Hlt Hspawn.
  assert (forall spawn' out,
            (exists c, spawn' (install_command env) = inr c /\
                       child_stdout c = out) ->
            upgrade_if_outdated (with_shell spawn' env)
            = (inr true, [Print (outdated_message env);
                          Popen (install_command env); Print out])) as Hup.
  { intros spawn' out (c & Hc & <-).
    rewrite (upgrade_if_outdated_outdated (with_shell spawn' env) Hlt).
    change (install_command (with_shell spawn' env)) with (install_command env).
    cbn [os_popen with_shell]. unfold shell_popen. rewrite Hc. reflexivity. }
  assert (forall spawn' out,
            (exists c, spawn' (install_command env) = inr c /\
                       child_stdout c = out) ->
            check_dependencies (with_shell spawn' env)
            = if has_kernel env
              then (inr tt, [Print (outdated_message env);
                             Popen (install_command env); Print out;
                             Print restarting_message; DoShutdown true;
                             Print warning_message])
              else (inl (AttributeError "kernel"),
                    [Print (outdated_message env);
                     Popen (install_command env); Print out;
                     Print restarting_message])) as Hrun.
  { intros spawn' out Hc.
    rewrite (check_dependencies_after_upgrade _ _ (Hup spawn' out Hc)).
    reflexivity. }
  assert (exists c, spawn (install_command env) = inr c /\
                    child_stdout c = child_stdout child) as Hhere by eauto.
  split; [rewrite (Hup _ _ Hhere); reflexivity|].
  split; [rewrite (Hup _ _ Hhere); reflexivity|].
  split; [intros Hk; rewrite (Hrun _ _ Hhere), Hk; reflexivity|].
  intros status err.
  rewrite (Hrun spawn _ Hhere).
  apply Hrun. unfold with_status_and_stderr. rewrite Hspawn. eauto.
Qed.

Lemma restart_whatever_the_installer_status_witness :
  restart_signals
    (trace (check_dependencies
              (with_shell failing_pip (Canned.version_env "2.89.1"))))
  = [true].
Proof.
  exact (f_equal (fun run => restart_signals (snd run))
           (proj1 (proj2 (proj2 (restart_whatever_the_installer_status
                                   (Canned.version_env "2.89.1") failing_pip _
                                   eq_refl eq_refl)))
                  eq_refl)).
Defined.

Example outdated_host_run :
  check_dependencies (InMemory.env [] "2.89.1" "Successfully installed" 0 true)
  = (inr tt,
     [Print "This workshop was tested with sagemaker version 2.90.0 but you are using 2.89.1. Installing required version...";
      Popen "/usr/bin/python3 -m pip install -U sagemaker==2.90.0";
      Print "Successfully installed";
      Print "Restarting kernel after installing new dependencies...";
      DoShutdown true;
      Print "WARNING: Kernel restarting...please wait 30 seconds before moving to the next cell!"]).
Proof. reflexivity. Qed.

(** C9 as stated does not hold.  On a host with SDK 2.89.1, a [pip]
    that prints "Successfully installed" and a kernel, the restart is
    marked required, yet no warning line comes out before
    [do_shutdown(True)]: the line that announces itself as a warning is
    printed after the signal. *)
Lemma warning_follows_shutdown :
  ~ (forall env,
       result (upgrade_if_outdated env) = inr true ->
       warned_before_shutdown false (trace (check_dependencies env)) = true).
Proof.
  intros H.
  specialize (H (InMemory.env [] "2.89.1" "Successfully installed" 0 true)
                eq_refl).
  rewrite outdated_host_run in H. discriminate H.
Qed.

(** C9, amended.  In every run of [check_dependencies] in which the
    restart was marked required: the restart notice is printed first;
    with a kernel, [do_shutdown(True)] is then called once and the
    warning line is printed after it, ending the run; without a kernel
    the run stops with [AttributeError] after the notice, and nothing
    is signalled.  The notice is not a warning line; the last line is.
    (What the installer wrote is printed before the notice, as it
    came.) *)
Theorem restart_notice_shutdown_warning env :
  result (upgrade_if_outdated env) = inr true ->
  is_warning restarting_message = false /\
  is_warning warning_message = true /\
  exists before,
    restart_signals before = [] /\
    (has_kernel env = true ->
     check_dependencies env =
       (inr tt, before ++ [Print restarting_message; DoShutdown true;
                           Print warning_message])) /\
    (has_kernel env = false ->
     check_dependencies env =
       (inl (AttributeError "kernel"), before ++ [Print restarting_message])).
Proof.
  intros Hreq.
  destruct (restart_marked_required env Hreq) as (p & _ & _ & Hup).
  pose proof (check_dependencies_after_upgrade env _ Hup) as Hrun.
  split; [reflexivity|]. split; [reflexivity|].
  exists [Print (outdated_message env); Popen (install_command env);
          Print (pipe_output p)].
  split; [|split; intros Hk; rewrite Hk in Hrun; rewrite Hrun].
  - reflexivity.
  - reflexivity.
  - reflexivity.
Qed.

Lemma restart_notice_shutdown_warning_witness :
  is_warning restarting_message = false /\
  is_warning warning_message = true /\
  exists before,
    restart_signals before = [] /\
    (true = true ->
     check_dependencies (InMemory.env [] "2.89.1" "ok" 0 true) =
       (inr tt, before ++ [Print restarting_message; DoShutdown true;
                           Print warning_message])) /\
    (true = false ->
     check_dependencies (InMemory.env [] "2.89.1" "ok" 0 true) =
       (inl (AttributeError "kernel"), before ++ [Print restarting_message])).
Proof.
  exact (restart_notice_shutdown_warning
           (InMemory.env [] "2.89.1" "ok" 0 true) eq_refl).
Defined.

(* ===================================================================== *)
(** ** The two service wrappers *)
(* ===================================================================== *)

Section Wrappers.

Lemma getitem_key_not_raised v key e :
  getitem_key v key = inl e -> raised_by_module e = false.
Proof.
  destruct v; simpl; try (intros [= <-]; reflexivity).
  destruct (d !! key); intros [= <-]; reflexivity.
Qed.

Lemma len_not_raised v e : len v = inl e -> raised_by_module e = false.
Proof. destruct v; simpl; intros [= <-]; reflexivity. Qed.

Lemma getitem_index_not_raised v i e :
  getitem_index v i = inl e -> raised_by_module e = false.
Proof.
  destruct v; simpl; try (intros [= <-]; reflexivity).
  - destruct (_ && _); [destruct (String.get _ _)|]; intros [= <-]; reflexivity.
  - destruct (_ && _); [destruct (_ !! _)|]; intros [= <-]; reflexivity.
Qed.

Lemma versiontuple_raises_value_error v e :
  versiontuple v = inl e -> raised_by_module e = false.
Proof.
  unfold versiontuple. generalize (split_on "." v) as fields.
  induction fields as [|f fields IH]; simpl; [discriminate|].
  unfold int. destruct (parse_int f).
  - destruct (tuple_map_int fields); [|discriminate].
    intros [= <-]. apply IH. reflexivity.
  - intros [= <-]. reflexivity.
Qed.

Lemma compare_versions_not_raised op v w e :
  compare_versions op v w = inl e -> raised_by_module e = false.
Proof.
  unfold compare_versions.
  destruct (versiontuple v) eqn:Hv.
  - intros [= <-]. eapply versiontuple_raises_value_error, Hv.
  - destruct (versiontuple w) eqn:Hw; [|discriminate].
    intros [= <-]. eapply versiontuple_raises_value_error, Hw.
Qed.

Variable env : Env.

(** The lookup makes its two calls and then only reads the response. *)
Lemma get_latest_training_job_name_run base :
  get_latest_training_job_name env base =
  match boto3_client env "sagemaker" with
  | inl e => (inl (Foreign e), [Boto3Client "sagemaker"])
  | inr client =>
      match list_training_jobs client (lookup_request base) with
      | inl e => (inl (Foreign e), [Boto3Client "sagemaker";
                                    ListTrainingJobs (lookup_request base)])
      | inr response =>
          (first_job_name response,
           [Boto3Client "sagemaker"; ListTrainingJobs (lookup_request base)])
      end
  end.
Proof.
  unfold get_latest_training_job_name, first_job_name.
  fold (lookup_request base).
  destruct (boto3_client env "sagemaker") as [e|client]; [reflexivity|].
  cbn [call bind].
  destruct (list_training_jobs client (lookup_request base)) as [e|response];
    [reflexivity|].
  cbn [bind lift].
  destruct (getitem_key response "TrainingJobSummaries") as [e|summaries];
    [reflexivity|].
  destruct (len summaries) as [e|n]; [reflexivity|].
  destruct (n >? 0); [|reflexivity].
  cbn [bind lift].
  destruct (getitem_index summaries 0) as [e|first]; [reflexivity|].
  cbn [bind lift].
  destruct (getitem_key first "TrainingJobName"); reflexivity.
Qed.

Lemma get_training_job_s3_model_artifacts_run job_name :
  get_training_job_s3_model_artifacts env job_name =
  match boto3_client env "sagemaker" with
  | inl e => (inl (Foreign e), [Boto3Client "sagemaker"])
  | inr client =>
      match describe_training_job client job_name with
      | inl e => (inl (Foreign e), [Boto3Client "sagemaker";
                                    DescribeTrainingJob job_name])
      | inr response =>
          (match getitem_key response "ModelArtifacts" with
           | inl e => inl e
           | inr model_artifacts =>
               getitem_key model_artifacts "S3ModelArtifacts"
           end,
           [Boto3Client "sagemaker"; DescribeTrainingJob job_name])
      end
  end.
Proof.
  unfold get_training_job_s3_model_artifacts.
  destruct (boto3_client env "sagemaker") as [e|client]; [reflexivity|].
  cbn [call bind].
  destruct (describe_training_job client job_name) as [e|response];
    [reflexivity|].
  cbn [bind lift].
  destruct (getitem_key response "ModelArtifacts") as [e|artifacts];
    [reflexivity|].
  cbn [bind lift].
  destruct (getitem_key artifacts "S3ModelArtifacts"); reflexivity.
Qed.

End Wrappers.

Section Listings.

Lemma decode_listing_inv response jobs :
  decode_listing response = Some jobs ->
  exists d vs,
    response = PDict d /\
    d !! "TrainingJobSummaries" = Some (PList vs) /\
    Forall2 (fun v j => decode_summary v = Some j) vs jobs.
Proof.
  destruct response as [| | | | | |d]; try discriminate. simpl.
  destruct (d !! "TrainingJobSummaries") as [[| | | | |vs|]|] eqn:Hd;
    try discriminate.
  intros Hm. exists d, vs. repeat split; try assumption.
  apply mapM_Some. exact Hm.
Qed.

Lemma decode_summary_inv v j :
  decode_summary v = Some j ->
  getitem_key v "TrainingJobName" = inr (PStr (TrainingJobName j)).
Proof.
  destruct v as [| | | | | |d]; try discriminate. simpl.
  destruct (d !! "TrainingJobName") as [[| | |name| | |]|]; try discriminate.
  destruct (d !! "CreationTime") as [[| | | |t| |]|]; try discriminate.
  destruct (d !! "TrainingJobStatus") as [[| | |status| | |]|]; try discriminate.
  intros [= <-]. reflexivity.
Qed.

(** In a descending sequence the head bounds every element. *)
Lemma descending_head_max t ts :
  descending (t :: ts) = true -> Forall (fun u => u <= t) (t :: ts).
Proof.
  revert t. induction ts as [|u ts IH]; intros t H.
  - constructor; [lia|constructor].
  - change (descending (t :: u :: ts))
      with ((u <=? t) && descending (u :: ts)) in H.
    apply andb_prop in H as [Hut Hrest]. apply Z.leb_le in Hut.
    specialize (IH u Hrest).
    constructor; [lia|].
    eapply Forall_impl; [exact IH|]. intros w Hw. simpl in Hw. lia.
Qed.

(** An empty listing is "not found"; a non-empty one yields the name in
    its first entry. *)
Lemma first_job_name_empty response :
  decode_listing response = Some [] ->
  first_job_name response = inl (Exception "Training job not found.").
Proof.
  intros H. destruct (decode_listing_inv _ _ H) as (d & vs & -> & Hd & Hall).
  inversion Hall; subst.
  unfold first_job_name. simpl. rewrite Hd. reflexivity.
Qed.

Lemma first_job_name_head response j jobs :
  decode_listing response = Some (j :: jobs) ->
  first_job_name response = inr (PStr (TrainingJobName j)).
Proof.
  intros H. destruct (decode_listing_inv _ _ H) as (d & vs & -> & Hd & Hall).
  inversion Hall as [|v j' vs' jobs' Hv Hrest]; subst.
  unfold first_job_name. simpl getitem_key. rewrite Hd.
  cbn [len length]. rewrite Nat2Z.inj_succ.
  destruct (Z.gtb_spec (Z.succ (Z.of_nat (length vs'))) 0) as [_|Hle]; [|lia].
  unfold getitem_index.
  destruct (Z.ltb_spec 0 0) as [Hlt|_]; [lia|].
  cbn [length]. rewrite Nat2Z.inj_succ.
  destruct (Z.leb_spec 0 0) as [_|Hlt]; [|lia].
  destruct (Z.ltb_spec 0 (Z.succ (Z.of_nat (length vs')))) as [_|Hge]; [|lia].
  simpl. apply decode_summary_inv, Hv.
Qed.

(** The only way [first_job_name] ends in an exception of the module's
    own making is the empty listing. *)
Lemma first_job_name_raised response e :
  first_job_name response = inl e ->
  raised_by_module e = true ->
  e = Exception "Training job not found.".
Proof.
  unfold first_job_name.
  destruct (getitem_key response "TrainingJobSummaries") as [e1|summaries] eqn:H1.
  { intros [= <-] Hr. rewrite (getitem_key_not_raised _ _ _ H1) in Hr.
    discriminate. }
  destruct (len summaries) as [e2|n] eqn:H2.
  { intros [= <-] Hr. rewrite (len_not_raised _ _ H2) in Hr. discriminate. }
  destruct (n >? 0); [|intros [= <-] _; reflexivity].
  destruct (getitem_index summaries 0) as [e3|first] eqn:H3.
  { intros [= <-] Hr. rewrite (getitem_index_not_raised _ _ _ H3) in Hr.
    discriminate. }
  intros H4 Hr. rewrite (getitem_key_not_raised _ _ _ H4) in Hr. discriminate.
Qed.

End Listings.

(** C1.  Whenever the listing the service returns for the lookup's
    request (name filter, status [Completed], creation time descending)
    holds at least one job, [get_latest_training_job_name] returns the
    name of the first job of that listing, and no job of the listing was
    created later than it. *)
Theorem latest_job_is_newest env base client response jobs :
  boto3_client env "sagemaker" = inr client ->
  list_training_jobs client (lookup_request base) = inr response ->
  decode_listing response = Some jobs ->
  jobs <> [] ->
  descending (map CreationTime jobs) = true ->
  exists newest,
    head jobs = Some newest /\
    In newest jobs /\
    Forall (fun j => CreationTime j <= CreationTime newest) jobs /\
    result (get_latest_training_job_name env base)
      = inr (PStr (TrainingJobName newest)).
Proof.
  intros Hc Hl Hd Hne Hdesc.
  destruct jobs as [|newest jobs]; [contradiction|].
  exists newest. split; [reflexivity|]. split; [left; reflexivity|].
  split.
  - apply descending_head_max in Hdesc.
    apply List.Forall_forall. intros j Hj.
    apply (proj1 (List.Forall_forall _ _) Hdesc (CreationTime j)).
    exact (in_map CreationTime (newest :: jobs) j Hj).
  - rewrite get_latest_training_job_name_run, Hc, Hl.
    apply (first_job_name_head _ _ _ Hd).
Qed.

Lemma latest_job_is_newest_witness :
  exists newest,
    In newest InMemory.churn_jobs /\
    TrainingJobName newest = "churn-predict-2024-02-01" /\
    result (get_latest_training_job_name
              (InMemory.env InMemory.churn_jobs "2.90.0" "" 0 true)
              "churn-predict")
      = inr (PStr (TrainingJobName newest)).
Proof.
  destruct (latest_job_is_newest
              (InMemory.env InMemory.churn_jobs "2.90.0" "" 0 true)
              "churn-predict"
              (InMemory.client InMemory.churn_jobs)
              _ _ eq_refl eq_refl eq_refl
              ltac:(discriminate) eq_refl)
    as (newest & Hhead & _ & _ & Hres).
  exists newest. injection Hhead as <-.
  split; [right; left; reflexivity|]. split; [reflexivity|exact Hres].
Defined.

Section OwnExceptions.

Variable env : Env.

Lemma get_latest_training_job_name_raised base e :
  result (get_latest_training_job_name env base) = inl e ->
  raised_by_module e = true ->
  e = Exception "Training job not found." /\
  trace (get_latest_training_job_name env base)
    = [Boto3Client "sagemaker"; ListTrainingJobs (lookup_request base)].
Proof.
  rewrite get_latest_training_job_name_run.
  destruct (boto3_client env "sagemaker") as [e1|client].
  { intros [= <-]; discriminate. }
  destruct (list_training_jobs client (lookup_request base)) as [e2|response].
  { intros [= <-]; discriminate. }
  intros H Hr. split; [|reflexivity].
  exact (first_job_name_raised _ _ H Hr).
Qed.

Lemma get_training_job_s3_model_artifacts_not_raised job_name e :
  result (get_training_job_s3_model_artifacts env job_name) = inl e ->
  raised_by_module e = false.
Proof.
  rewrite get_training_job_s3_model_artifacts_run.
  destruct (boto3_client env "sagemaker") as [e1|client].
  { intros [= <-]; reflexivity. }
  destruct (describe_training_job client job_name) as [e2|response].
  { intros [= <-]; reflexivity. }
  unfold result, fst.
  destruct (getitem_key response "ModelArtifacts") as [e3|artifacts] eqn:H3.
  { intros [= <-]. exact (getitem_key_not_raised _ _ _ H3). }
  apply getitem_key_not_raised.
Qed.

Lemma check_dependencies_not_raised e :
  result (check_dependencies env) = inl e -> raised_by_module e = false.
Proof.
  destruct (compare_versions Lt (sagemaker_version env) required_version)
    as [e1|[|]] eqn:Hc; unfold check_dependencies.
  - rewrite (upgrade_if_outdated_raises env _ Hc).
    intros [= <-]. exact (compare_versions_not_raised _ _ _ _ Hc).
  - rewrite (upgrade_if_outdated_outdated env Hc).
    destruct (os_popen env (install_command env)) as [e2|p].
    { intros [= <-]; reflexivity. }
    cbn [bind]. rewrite restart_if_required_runs.
    destruct (has_kernel env); [discriminate|].
    intros [= <-]; reflexivity.
  - rewrite (upgrade_if_outdated_current env Hc). discriminate.
Qed.

End OwnExceptions.

(** C2.  When the listing the service returns holds no job,
    [get_latest_training_job_name] fails with
    [Exception('Training job not found.')] after one listing request and
    no second one.  That exception is the only one the module builds
    itself: the lookup raises no other of its own, and the two other
    functions raise none. *)
Theorem no_completed_job_is_not_found :
  (forall env base client response,
     boto3_client env "sagemaker" = inr client ->
     list_training_jobs client (lookup_request base) = inr response ->
     decode_listing response = Some [] ->
     get_latest_training_job_name env base
       = (inl (Exception "Training job not found."),
          [Boto3Client "sagemaker"; ListTrainingJobs (lookup_request base)]) /\
     listing_calls (trace (get_latest_training_job_name env base))
       = [lookup_request base]) /\
  (forall env base e,
     result (get_latest_training_job_name env base) = inl e ->
     raised_by_module e = true ->
     e = Exception "Training job not found." /\
     listing_calls (trace (get_latest_training_job_name env base))
       = [lookup_request base]) /\
  (forall env job_name e,
     result (get_training_job_s3_model_artifacts env job_name) = inl e ->
     raised_by_module e = false) /\
  (forall env e,
     result (check_dependencies env) = inl e -> raised_by_module e = false).
Proof.
  split; [|split; [|split]].
  - intros env base client response Hc Hl Hd.
    rewrite get_latest_training_job_name_run, Hc, Hl.
    rewrite (first_job_name_empty _ Hd). split; reflexivity.
  - intros env base e He Hr.
    destruct (get_latest_training_job_name_raised env base e He Hr) as [-> Ht].
    rewrite Ht. split; reflexivity.
  - exact get_training_job_s3_model_artifacts_not_raised.
  - exact check_dependencies_not_raised.
Qed.

Lemma no_completed_job_is_not_found_witness :
  get_latest_training_job_name
    (InMemory.env InMemory.churn_jobs "2.90.0" "" 0 true) "iris"
  = (inl (Exception "Training job not found."),
     [Boto3Client "sagemaker"; ListTrainingJobs (lookup_request "iris")]).
Proof.
  exact (proj1 (proj1 no_completed_job_is_not_found
                  (InMemory.env InMemory.churn_jobs "2.90.0" "" 0 true)
                  "iris" (InMemory.client InMemory.churn_jobs) _
                  eq_refl eq_refl eq_refl)).
Defined.

(** C6.  Whenever the describe call returns a response,
    [get_training_job_s3_model_artifacts] returns the very value found
    under [ModelArtifacts] / [S3ModelArtifacts] in it, a string as it
    is, after that one call. *)
Theorem artifact_location_is_returned env job_name client response v :
  boto3_client env "sagemaker" = inr client ->
  describe_training_job client job_name = inr response ->
  artifact_location response = Some v ->
  get_training_job_s3_model_artifacts env job_name
    = (inr v, [Boto3Client "sagemaker"; DescribeTrainingJob job_name]).
Proof.
  intros Hc Hd Hv.
  rewrite get_training_job_s3_model_artifacts_run, Hc, Hd.
  destruct response as [| | | | | |d]; try discriminate. simpl in *.
  destruct (d !! "ModelArtifacts") as [[| | | | | |a]|]; try discriminate.
  simpl. rewrite Hv. reflexivity.
Qed.

Lemma artifact_location_is_returned_witness :
  get_training_job_s3_model_artifacts
    (InMemory.env InMemory.churn_jobs "2.90.0" "" 0 true)
    "churn-predict-2024-02-01"
  = (inr (PStr "s3://models/churn-predict-2024-02-01/output/model.tar.gz"),
     [Boto3Client "sagemaker"; DescribeTrainingJob "churn-predict-2024-02-01"]).
Proof.
  exact (artifact_location_is_returned
           (InMemory.env InMemory.churn_jobs "2.90.0" "" 0 true)
           "churn-predict-2024-02-01"
           (InMemory.client InMemory.churn_jobs) _ _
           eq_refl eq_refl eq_refl).
Defined.

(* ===================================================================== *)
(** ** The lookup against the in-memory service *)
(* ===================================================================== *)

Section InMemoryService.

Lemma decode_summary_to_py j : decode_summary (summary_to_py j) = Some j.
Proof.
  destruct j as [name t status]. unfold decode_summary, summary_to_py.
  cbn [TrainingJobName CreationTime TrainingJobStatus].
  rewrite lookup_insert_eq.
  rewrite lookup_insert_ne, lookup_insert_eq by discriminate.
  rewrite !lookup_insert_ne, lookup_insert_eq by discriminate.
  reflexivity.
Qed.

Lemma decode_listing_response jobs :
  decode_listing (listing_response jobs) = Some jobs.
Proof.
  unfold decode_listing, listing_response. rewrite lookup_insert_eq.
  apply mapM_Some.
  induction jobs as [|j jobs IH]; constructor;
    [apply decode_summary_to_py|exact IH].
Qed.

Lemma In_insert_desc x j l :
  In x (InMemory.insert_desc j l) <-> x = j \/ In x l.
Proof.
  induction l as [|k l IH]; simpl.
  - intuition.
  - destruct (CreationTime k <=? CreationTime j); simpl; intuition.
Qed.

Lemma In_sort_desc x l : In x (InMemory.sort_desc l) <-> In x l.
Proof.
  induction l as [|k l IH]; simpl; [tauto|].
  rewrite In_insert_desc, IH. intuition.
Qed.

Lemma insert_desc_descending j l :
  descending (map CreationTime l) = true ->
  descending (map CreationTime (InMemory.insert_desc j l)) = true.
Proof.
  induction l as [|k l IH]; intros H; [reflexivity|].
  simpl InMemory.insert_desc.
  destruct (Z.leb_spec (CreationTime k) (CreationTime j)) as [Hle|Hgt].
  - change (((CreationTime k <=? CreationTime j)
             && descending (map CreationTime (k :: l))) = true).
    apply andb_true_intro. split; [apply Z.leb_le, Hle|exact H].
  - assert (descending (map CreationTime l) = true) as Hl.
    { destruct l as [|m l]; [reflexivity|].
      change (((CreationTime m <=? CreationTime k)
               && descending (map CreationTime (m :: l))) = true) in H.
      apply andb_prop in H. tauto. }
    specialize (IH Hl).
    destruct l as [|m l].
    + simpl. rewrite andb_true_r. apply Z.leb_le. lia.
    + change (((CreationTime m <=? CreationTime k)
               && descending (map CreationTime (m :: l))) = true) in H.
      apply andb_prop in H as [Hmk _].
      simpl InMemory.insert_desc in *.
      destruct (CreationTime m <=? CreationTime j).
      * change (((CreationTime j <=? CreationTime k)
                 && descending (map CreationTime (j :: m :: l))) = true).
        apply andb_true_intro. split; [apply Z.leb_le; lia|exact IH].
      * change (((CreationTime m <=? CreationTime k)
                 && descending
                      (map CreationTime (m :: InMemory.insert_desc j l))) = true).
        apply andb_true_intro. split; [exact Hmk|exact IH].
Qed.

Lemma sort_desc_descending l :
  descending (map CreationTime (InMemory.sort_desc l)) = true.
Proof.
  induction l as [|k l IH]; [reflexivity|].
  simpl. apply insert_desc_descending, IH.
Qed.

(** Over any store, the lookup returns the name of a completed job whose
    name contains the filter and that no other such job is newer than,
    as soon as the store has one such job. *)
Lemma in_memory_lookup store version output status kernel base j :
  In j store ->
  InMemory.matches (lookup_request base) j = true ->
  exists newest,
    In newest store /\
    InMemory.contains base (TrainingJobName newest) = true /\
    TrainingJobStatus newest = "Completed" /\
    (forall k, In k store ->
               InMemory.matches (lookup_request base) k = true ->
               CreationTime k <= CreationTime newest) /\
    result (get_latest_training_job_name
              (InMemory.env store version output status kernel) base)
      = inr (PStr (TrainingJobName newest)).
Proof.
  intros Hj Hm.
  set (req := lookup_request base) in *.
  set (jobs := InMemory.listing store req).
  assert (forall k, In k jobs <-> In k store /\ InMemory.matches req k = true)
    as Hjobs.
  { intros k. unfold jobs, InMemory.listing. simpl.
    rewrite In_sort_desc. apply filter_In. }
  assert (descending (map CreationTime jobs) = true) as Hdesc.
  { unfold jobs, InMemory.listing. simpl. apply sort_desc_descending. }
  destruct jobs as [|newest rest] eqn:Ejobs.
  { exfalso. apply (proj2 (Hjobs j)). split; assumption. }
  exists newest.
  destruct (proj1 (Hjobs newest) (or_introl eq_refl)) as [Hin Hmatch].
  unfold InMemory.matches in Hmatch. apply andb_prop in Hmatch as [Hc Hs].
  apply String.eqb_eq in Hs.
  repeat split; try assumption.
  - intros k Hk Hkm.
    pose proof (descending_head_max _ _ Hdesc) as Hmax.
    apply (proj1 (List.Forall_forall _ _) Hmax (CreationTime k)).
    change (In (CreationTime k) (map CreationTime (newest :: rest))).
    apply in_map, Hjobs. split; assumption.
  - rewrite get_latest_training_job_name_run. cbn [boto3_client InMemory.env].
    cbn [list_training_jobs InMemory.client]. fold req. fold jobs.
    unfold result, fst. apply first_job_name_head with (jobs := rest).
    rewrite <- Ejobs. apply decode_listing_response.
Qed.

End InMemoryService.

(* ===================================================================== *)
(** ** Further properties of the two service wrappers *)
(* ===================================================================== *)

(** X1.  Whatever the service answers, a run of
    [get_latest_training_job_name] builds one client for the
    ['sagemaker'] service and then sends at most one listing request;
    the request carries the name filter, [SortBy='CreationTime'],
    [SortOrder='Descending'] and [StatusEquals='Completed'].  Nothing
    else happens: no print, no process, no kernel signal, no second
    attempt. *)
Theorem lookup_calls_at_most_once env base :
  exists rest,
    trace (get_latest_training_job_name env base)
      = Boto3Client "sagemaker" :: rest /\
    (rest = [] \/
     rest = [ListTrainingJobs {| NameContains := base;
                                 SortBy := "CreationTime";
                                 SortOrder := "Descending";
                                 StatusEquals := "Completed" |}]) /\
    (rest = [] <-> exists e, boto3_client env "sagemaker" = inl e).
Proof.
  rewrite get_latest_training_job_name_run.
  destruct (boto3_client env "sagemaker") as [e|client].
  - exists []. repeat split; eauto.
  - destruct (list_training_jobs client (lookup_request base));
      (eexists; split; [reflexivity|]; split; [right; reflexivity|]);
      (split; [discriminate|intros [e' He']; discriminate]).
Qed.

(** X2.  The same for [get_training_job_s3_model_artifacts]: one client,
    then at most one describe request, for the job name it was given. *)
Theorem describe_calls_at_most_once env job_name :
  exists rest,
    trace (get_training_job_s3_model_artifacts env job_name)
      = Boto3Client "sagemaker" :: rest /\
    (rest = [] \/ rest = [DescribeTrainingJob job_name]) /\
    (rest = [] <-> exists e, boto3_client env "sagemaker" = inl e).
Proof.
  rewrite get_training_job_s3_model_artifacts_run.
  destruct (boto3_client env "sagemaker") as [e|client].
  - exists []. repeat split; eauto.
  - destruct (describe_training_job client job_name);
      (eexists; split; [reflexivity|]; split; [right; reflexivity|]);
      (split; [discriminate|intros [e' He']; discriminate]).
Qed.

(** X3.  When [boto3.client('sagemaker')] raises, both wrappers end with
    that very exception and call no operation of the service. *)
Theorem client_failure_passes_through env e :
  boto3_client env "sagemaker" = inl e ->
  (forall base,
     get_latest_training_job_name env base
       = (inl (Foreign e), [Boto3Client "sagemaker"])) /\
  (forall job_name,
     get_training_job_s3_model_artifacts env job_name
       = (inl (Foreign e), [Boto3Client "sagemaker"])).
Proof.
  intros He. split; intros x.
  - rewrite get_latest_training_job_name_run, He. reflexivity.
  - rewrite get_training_job_s3_model_artifacts_run, He. reflexivity.
Qed.

Lemma client_failure_passes_through_witness :
  get_latest_training_job_name (Canned.version_env "2.90.0") "churn"
    = (inl (Foreign Canned.no_region), [Boto3Client "sagemaker"]).
Proof.
  exact (proj1 (client_failure_passes_through
                  (Canned.version_env "2.90.0") Canned.no_region eq_refl)
               "churn").
Defined.

(** X4.  When [list_training_jobs] raises, the lookup ends with that very
    exception, neither wrapped nor replaced by "not found", and the
    request is not repeated. *)
Theorem listing_failure_passes_through env base client e :
  boto3_client env "sagemaker" = inr client ->
  list_training_jobs client (lookup_request base) = inl e ->
  get_latest_training_job_name env base
    = (inl (Foreign e),
       [Boto3Client "sagemaker"; ListTrainingJobs (lookup_request base)]) /\
  Foreign e <> Exception "Training job not found.".
Proof.
  intros Hc Hl. rewrite get_latest_training_job_name_run, Hc, Hl.
  split; [reflexivity|discriminate].
Qed.

Lemma listing_failure_passes_through_witness :
  get_latest_training_job_name
    (Canned.listing_env (inl Canned.throttled)) "churn"
  = (inl (Foreign Canned.throttled),
     [Boto3Client "sagemaker"; ListTrainingJobs (lookup_request "churn")]).
Proof.
  exact (proj1 (listing_failure_passes_through
                  (Canned.listing_env (inl Canned.throttled)) "churn"
                  _ Canned.throttled eq_refl eq_refl)).
Defined.

(** X5.  When [describe_training_job] raises (an unknown job name, for
    one), [get_training_job_s3_model_artifacts] ends with that very
    exception after the one call. *)
Theorem describe_failure_passes_through env job_name client e :
  boto3_client env "sagemaker" = inr client ->
  describe_training_job client job_name = inl e ->
  get_training_job_s3_model_artifacts env job_name
    = (inl (Foreign e),
       [Boto3Client "sagemaker"; DescribeTrainingJob job_name]).
Proof.
  intros Hc Hd. rewrite get_training_job_s3_model_artifacts_run, Hc, Hd.
  reflexivity.
Qed.

Lemma describe_failure_passes_through_witness :
  result (get_training_job_s3_model_artifacts
            (InMemory.env InMemory.churn_jobs "2.90.0" "" 0 true)
            "no-such-job")
  = inl (Foreign {| fe_class := "ClientError";
                    fe_message := "Requested resource not found." |}).
Proof.
  exact (f_equal fst
           (describe_failure_passes_through
              (InMemory.env InMemory.churn_jobs "2.90.0" "" 0 true)
              "no-such-job" (InMemory.client InMemory.churn_jobs) _
              eq_refl eq_refl)).
Defined.

Section RawResponses.

Lemma len_nonneg v n : len v = inr n -> 0 <= n.
Proof. destruct v; simpl; intros [= <-]; lia. Qed.

Lemma first_job_name_of_list d first others :
  d !! "TrainingJobSummaries" = Some (PList (first :: others)) ->
  first_job_name (PDict d) = getitem_key first "TrainingJobName".
Proof.
  intros Hd. unfold first_job_name. simpl getitem_key. rewrite Hd.
  cbn [len length]. rewrite Nat2Z.inj_succ.
  destruct (Z.gtb_spec (Z.succ (Z.of_nat (length others))) 0) as [_|Hle]; [|lia].
  unfold getitem_index.
  destruct (Z.ltb_spec 0 0) as [Hlt|_]; [lia|].
  cbn [length]. rewrite Nat2Z.inj_succ.
  destruct (Z.leb_spec 0 0) as [_|Hlt]; [|lia].
  destruct (Z.ltb_spec 0 (Z.succ (Z.of_nat (length others)))) as [_|Hge]; [|lia].
  simpl. destruct (getitem_key first "TrainingJobName"); reflexivity.
Qed.

(** "Not found" comes out exactly when the summaries have length zero. *)
Lemma first_job_name_not_found response :
  first_job_name response = inl (Exception "Training job not found.") <->
  exists summaries,
    getitem_key response "TrainingJobSummaries" = inr summaries /\
    len summaries = inr 0.
Proof.
  unfold first_job_name. split.
  - destruct (getitem_key response "TrainingJobSummaries")
      as [e1|summaries] eqn:H1.
    { intros [= ->]. apply getitem_key_not_raised in H1. discriminate. }
    destruct (len summaries) as [e2|n] eqn:H2.
    { intros [= ->]. apply len_not_raised in H2. discriminate. }
    pose proof (len_nonneg _ _ H2) as Hn.
    destruct (Z.gtb_spec n 0) as [Hpos|Hle].
    + destruct (getitem_index summaries 0) as [e3|first] eqn:H3.
      { intros [= ->]. apply getitem_index_not_raised in H3. discriminate. }
      intros H4. apply getitem_key_not_raised in H4. discriminate.
    + intros _. exists summaries. split; [reflexivity|].
      rewrite H2. f_equal. lia.
  - intros (summaries & -> & ->). reflexivity.
Qed.

End RawResponses.

(** X6.  The lookup hands back what the first entry of the listing has
    under [TrainingJobName], as it is: it looks at no other entry, and
    checks neither the order of the listing, nor the status or the name
    of the job, nor that the value is a string. *)
Theorem lookup_trusts_first_entry env base client d first others name :
  boto3_client env "sagemaker" = inr client ->
  list_training_jobs client (lookup_request base) = inr (PDict d) ->
  d !! "TrainingJobSummaries" = Some (PList (first :: others)) ->
  getitem_key first "TrainingJobName" = inr name ->
  get_latest_training_job_name env base
    = (inr name,
       [Boto3Client "sagemaker"; ListTrainingJobs (lookup_request base)]).
Proof.
  intros Hc Hl Hd Hn.
  rewrite get_latest_training_job_name_run, Hc, Hl.
  rewrite (first_job_name_of_list _ _ _ Hd), Hn. reflexivity.
Qed.

(** An ascending listing whose first job has failed and does not match
    the filter: the lookup returns it all the same. *)
Lemma lookup_trusts_first_entry_witness :
  get_latest_training_job_name
    (Canned.listing_env
       (inr (listing_response
               [ {| TrainingJobName := "fraud-detect-2023-12-01";
                    CreationTime := 1701388800;
                    TrainingJobStatus := "Failed" |};
                 {| TrainingJobName := "churn-predict-2024-02-01";
                    CreationTime := 1706745600;
                    TrainingJobStatus := "Completed" |} ])))
    "churn-predict"
  = (inr (PStr "fraud-detect-2023-12-01"),
     [Boto3Client "sagemaker"; ListTrainingJobs (lookup_request "churn-predict")]).
Proof.
  eapply lookup_trusts_first_entry; reflexivity.
Defined.

(** X7.  A response without the [TrainingJobSummaries] key makes the
    lookup fail with [KeyError('TrainingJobSummaries')], and a first
    entry without the [TrainingJobName] key with
    [KeyError('TrainingJobName')]; neither is turned into "not found". *)
Theorem lookup_missing_key env base client d :
  boto3_client env "sagemaker" = inr client ->
  list_training_jobs client (lookup_request base) = inr (PDict d) ->
  (d !! "TrainingJobSummaries" = None ->
   result (get_latest_training_job_name env base)
     = inl (KeyError "TrainingJobSummaries")) /\
  (forall entry others,
     d !! "TrainingJobSummaries" = Some (PList (PDict entry :: others)) ->
     entry !! "TrainingJobName" = None ->
     result (get_latest_training_job_name env base)
       = inl (KeyError "TrainingJobName")).
Proof.
  intros Hc Hl. rewrite get_latest_training_job_name_run, Hc, Hl.
  unfold result, fst. split.
  - intros Hd. unfold first_job_name. simpl. rewrite Hd. reflexivity.
  - intros entry others Hd He.
    rewrite (first_job_name_of_list _ _ _ Hd). simpl. rewrite He. reflexivity.
Qed.

Lemma lookup_missing_key_witness :
  result (get_latest_training_job_name
            (Canned.listing_env (inr (PDict ∅))) "churn")
    = inl (KeyError "TrainingJobSummaries") /\
  result (get_latest_training_job_name
            (Canned.listing_env
               (inr (PDict (<["TrainingJobSummaries" := PList [PDict ∅]]> ∅))))
            "churn")
    = inl (KeyError "TrainingJobName").
Proof.
  split.
  - exact (proj1 (lookup_missing_key
                    (Canned.listing_env (inr (PDict ∅))) "churn" _ ∅
                    eq_refl eq_refl) eq_refl).
  - exact (proj2 (lookup_missing_key
                    (Canned.listing_env
                       (inr (PDict (<["TrainingJobSummaries" := PList [PDict ∅]]> ∅))))
                    "churn" _ _ eq_refl eq_refl) ∅ [] eq_refl eq_refl).
Defined.

(** X8.  The lookup ends with [Exception('Training job not found.')]
    exactly when the client was built, the listing call returned, and
    [len(response['TrainingJobSummaries'])] is zero. *)
Theorem not_found_iff_empty_listing env base :
  result (get_latest_training_job_name env base)
    = inl (Exception "Training job not found.") <->
  exists client response summaries,
    boto3_client env "sagemaker" = inr client /\
    list_training_jobs client (lookup_request base) = inr response /\
    getitem_key response "TrainingJobSummaries" = inr summaries /\
    len summaries = inr 0.
Proof.
  rewrite get_latest_training_job_name_run. split.
  - destruct (boto3_client env "sagemaker") as [e|client] eqn:Hc;
      [discriminate|].
    destruct (list_training_jobs client (lookup_request base))
      as [e|response] eqn:Hl; [discriminate|].
    unfold result, fst. intros H.
    apply first_job_name_not_found in H as (summaries & H1 & H2).
    exists client, response, summaries. repeat split; assumption.
  - intros (client & response & summaries & -> & -> & H1 & H2).
    unfold result, fst. apply first_job_name_not_found. eauto.
Qed.

(** X9.  A describe response without the [ModelArtifacts] key, or whose
    [ModelArtifacts] has no [S3ModelArtifacts] key, makes
    [get_training_job_s3_model_artifacts] fail with the [KeyError] of
    the missing key. *)
Theorem artifacts_missing_key env job_name client d :
  boto3_client env "sagemaker" = inr client ->
  describe_training_job client job_name = inr (PDict d) ->
  (d !! "ModelArtifacts" = None ->
   result (get_training_job_s3_model_artifacts env job_name)
     = inl (KeyError "ModelArtifacts")) /\
  (forall a,
     d !! "ModelArtifacts" = Some (PDict a) ->
     a !! "S3ModelArtifacts" = None ->
     result (get_training_job_s3_model_artifacts env job_name)
       = inl (KeyError "S3ModelArtifacts")).
Proof.
  intros Hc Hd. rewrite get_training_job_s3_model_artifacts_run, Hc, Hd.
  unfold result, fst. simpl. split.
  - intros ->. reflexivity.
  - intros a -> Ha. simpl. rewrite Ha. reflexivity.
Qed.

Lemma artifacts_missing_key_witness :
  result (get_training_job_s3_model_artifacts
            (Canned.describing_env (inr (PDict ∅))) "job")
    = inl (KeyError "ModelArtifacts") /\
  result (get_training_job_s3_model_artifacts
            (Canned.describing_env
               (inr (PDict (<["ModelArtifacts" := PDict ∅]> ∅)))) "job")
    = inl (KeyError "S3ModelArtifacts").
Proof.
  split.
  - exact (proj1 (artifacts_missing_key
                    (Canned.describing_env (inr (PDict ∅))) "job" _ ∅
                    eq_refl eq_refl) eq_refl).
  - exact (proj2 (artifacts_missing_key
                    (Canned.describing_env
                       (inr (PDict (<["ModelArtifacts" := PDict ∅]> ∅))))
                    "job" _ _ eq_refl eq_refl) ∅ eq_refl eq_refl).
Defined.

(* ===================================================================== *)
(** ** Further properties of version strings *)
(* ===================================================================== *)

Section Splitting.

Variable sep : ascii.

Lemma split_on_app_sep u w :
  split_on sep (u +:+ String sep w) = split_on sep u ++ split_on sep w.
Proof.
  induction u as [|c u IH].
  - simpl. rewrite Ascii.eqb_refl. reflexivity.
  - change (String c u +:+ String sep w) with (String c (u +:+ String sep w)).
    simpl. rewrite IH.
    destruct (Ascii.eqb c sep); [reflexivity|].
    pose proof (split_on_nonempty sep u) as Hne.
    destruct (split_on sep u); [contradiction|reflexivity].
Qed.

Lemma split_on_length s :
  length (split_on sep s) = S (count_char sep s).
Proof.
  induction s as [|c s IH]; [reflexivity|].
  simpl. destruct (Ascii.eqb c sep); simpl.
  - rewrite IH. reflexivity.
  - destruct (split_on sep s); simpl in *; [discriminate|exact IH].
Qed.

Lemma join_with_split_on s : join_with sep (split_on sep s) = s.
Proof.
  induction s as [|c s IH]; [reflexivity|].
  simpl. pose proof (split_on_nonempty sep s) as Hne.
  destruct (Ascii.eqb_spec c sep) as [->|Hc].
  - destruct (split_on sep s) as [|f fs]; [contradiction|].
    change (join_with sep (EmptyString :: f :: fs))
      with (String sep (join_with sep (f :: fs))).
    rewrite IH. reflexivity.
  - destruct (split_on sep s) as [|f [|g gs]]; [contradiction| |].
    + simpl in *. rewrite IH. reflexivity.
    + change (join_with sep (String c f :: g :: gs))
        with (String c (join_with sep (f :: g :: gs))).
      rewrite IH. reflexivity.
Qed.

(** No field that [split_on] returns contains the separator. *)
Lemma split_on_fields_clean s :
  Forall (fun f => count_char sep f = 0%nat) (split_on sep s).
Proof.
  induction s as [|c s IH]; [repeat constructor|].
  simpl. destruct (Ascii.eqb c sep) eqn:Hc.
  - constructor; [reflexivity|exact IH].
  - destruct (split_on sep s) as [|f fs]; [repeat constructor; simpl; rewrite Hc; reflexivity|].
    inversion IH; subst. constructor; [|assumption].
    simpl. rewrite Hc. assumption.
Qed.

End Splitting.

Section TupleOrder.

Lemma tuple_map_int_length fields t :
  tuple_map_int fields = inr t -> length t = length fields.
Proof.
  revert t. induction fields as [|f fields IH]; intros t; simpl.
  - intros [= <-]. reflexivity.
  - destruct (int f); [discriminate|].
    destruct (tuple_map_int fields); [discriminate|].
    intros [= <-]. simpl. f_equal. apply IH. reflexivity.
Qed.

Lemma tuple_map_int_value_error fields e :
  tuple_map_int fields = inl e ->
  exists bad, In bad fields /\ parse_int bad = None /\ e = ValueError bad.
Proof.
  induction fields as [|f fields IH]; simpl; [discriminate|].
  unfold int. destruct (parse_int f) eqn:Hf.
  - destruct (tuple_map_int fields); [|discriminate].
    intros [= <-]. destruct (IH eq_refl) as (bad & Hin & Hbad & ->).
    exists bad. auto.
  - intros [= <-]. exists f. auto.
Qed.

Lemma tuple_lt_total a b :
  tuple_richcompare Lt a b = true \/ a = b \/ tuple_richcompare Lt b a = true.
Proof.
  revert b. induction a as [|x a IH]; intros [|y b]; simpl; auto.
  rewrite (Z.eqb_sym y x).
  destruct (Z.eqb_spec x y) as [->|Hne].
  - destruct (IH b) as [H|[->|H]]; auto.
  - destruct (Z.ltb_spec x y); [auto|].
    right; right. apply Z.ltb_lt. lia.
Qed.

Lemma tuple_lt_asym a b :
  tuple_richcompare Lt a b = true -> tuple_richcompare Lt b a = false.
Proof.
  revert b. induction a as [|x a IH]; intros [|y b]; simpl; try discriminate;
    try reflexivity.
  rewrite (Z.eqb_sym y x).
  destruct (Z.eqb_spec x y) as [->|Hne]; [apply IH|].
  intros H. apply Z.ltb_lt in H. apply Z.ltb_ge. lia.
Qed.

Lemma tuple_lt_trans a b c :
  tuple_richcompare Lt a b = true ->
  tuple_richcompare Lt b c = true ->
  tuple_richcompare Lt a c = true.
Proof.
  revert b c. induction a as [|x a IH]; intros [|y b] [|z c]; simpl;
    try discriminate; try reflexivity.
  destruct (Z.eqb_spec x y) as [->|Hxy].
  - destruct (Z.eqb_spec y z) as [->|Hyz]; [apply IH|auto].
  - intros Hlt. apply Z.ltb_lt in Hlt.
    destruct (Z.eqb_spec y z) as [->|Hyz].
    + intros _. destruct (Z.eqb_spec x z); [lia|]. apply Z.ltb_lt. lia.
    + intros Hlt'. apply Z.ltb_lt in Hlt'.
      destruct (Z.eqb_spec x z); [lia|]. apply Z.ltb_lt. lia.
Qed.

Lemma tuple_eq_iff a b : tuple_richcompare Eq a b = true <-> a = b.
Proof.
  revert b. induction a as [|x a IH]; intros [|y b]; simpl;
    try (split; [discriminate|discriminate]); [tauto|].
  destruct (Z.eqb_spec x y) as [->|Hne].
  - rewrite IH. split; [intros ->; reflexivity|intros [= ->]; reflexivity].
  - split; [discriminate|intros [= ? ?]; contradiction].
Qed.

Lemma tuple_gt_lt a b :
  tuple_richcompare Gt a b = tuple_richcompare Lt b a.
Proof.
  assert (forall x y, cmp_Z Gt x y = cmp_Z Lt y x) as Hc.
  { intros x y. simpl. apply Z.gtb_ltb. }
  revert b. induction a as [|x a IH]; intros [|y b]; simpl; try apply Hc.
  rewrite (Z.eqb_sym y x). destruct (x =? y); [apply IH|apply Hc].
Qed.

(** [>=] is transitive, being the negation of a strict total order. *)
Lemma tuple_ge_trans a b c :
  tuple_richcompare Lt a b = false ->
  tuple_richcompare Lt b c = false ->
  tuple_richcompare Lt a c = false.
Proof.
  intros Hab Hbc.
  destruct (tuple_richcompare Lt a c) eqn:Hac; [|reflexivity].
  destruct (tuple_lt_total a b) as [H|[->|H]]; [congruence|congruence|].
  rewrite (tuple_lt_trans _ _ _ H Hac) in Hbc. discriminate.
Qed.

Lemma tuple_lt_required t :
  tuple_richcompare Lt t [2; 90; 0] = older_than_2_90_0 t.
Proof.
  destruct t as [|major [|minor [|patch more]]]; simpl; try reflexivity.
  - destruct (Z.eqb_spec major 2); [subst; reflexivity|].
    rewrite orb_false_r. reflexivity.
  - destruct (Z.eqb_spec major 2); [subst|rewrite orb_false_r; reflexivity].
    simpl. destruct (Z.eqb_spec minor 90);
      [subst; reflexivity|rewrite orb_false_r; reflexivity].
  - destruct (Z.eqb_spec major 2); [subst|rewrite orb_false_r; reflexivity].
    simpl. destruct (Z.eqb_spec minor 90);
      [subst|rewrite orb_false_r; reflexivity].
    simpl. destruct (Z.eqb_spec patch 0); [subst|reflexivity].
    destruct more; reflexivity.
Qed.

End TupleOrder.

(** X10.  A version string that [versiontuple] accepts yields one integer
    per field: one more than the string has dots. *)
Theorem versiontuple_length v t :
  versiontuple v = inr t -> length t = S (count_char "." v).
Proof.
  intros H. unfold versiontuple in H.
  rewrite (tuple_map_int_length _ _ H). apply split_on_length.
Qed.

Lemma versiontuple_length_witness :
  length [2; 90; 0] = S (count_char "." "2.90.0").
Proof. exact (versiontuple_length "2.90.0" [2; 90; 0] eq_refl). Defined.

(** X11.  Splitting on a separator loses nothing and leaves no separator
    behind: joining the fields with the separator gives the string
    back, no field contains the separator, and there is always at least
    one field. *)
Theorem split_join_round_trip sep s :
  join_with sep (split_on sep s) = s /\
  Forall (fun field => count_char sep field = 0%nat) (split_on sep s) /\
  split_on sep s <> [].
Proof.
  split; [apply join_with_split_on|].
  split; [apply split_on_fields_clean|apply split_on_nonempty].
Qed.

(** X12.  A dot with nothing on one side of it leaves an empty field,
    which [int] rejects: the empty string, a string that starts or ends
    with a dot, and a string with two dots in a row are all rejected by
    [versiontuple] with a [ValueError]. *)
Theorem dangling_dot_is_rejected u w :
  versiontuple "" = inl (ValueError "") /\
  versiontuple (String "." w) = inl (ValueError "") /\
  (exists bad, versiontuple (u +:+ ".") = inl (ValueError bad)) /\
  (exists bad, versiontuple (u +:+ ".." +:+ w) = inl (ValueError bad)).
Proof.
  split; [reflexivity|]. split; [reflexivity|].
  assert (forall fields,
            In "" fields -> exists bad, tuple_map_int fields = inl (ValueError bad))
    as Hrej.
  { intros fields Hin.
    destruct (tuple_map_int_rejects fields) as (bad & _ & _ & Hbad).
    - apply List.Exists_exists. exists "". split; [exact Hin|reflexivity].
    - exists bad. exact Hbad. }
  split; apply Hrej.
  - rewrite split_on_app_sep. apply in_or_app. right. left. reflexivity.
  - change (u +:+ ".." +:+ w) with (u +:+ String "." (String "." w)).
    rewrite split_on_app_sep. apply in_or_app. right. left. reflexivity.
Qed.

(** X13.  On version strings, [<] as [versiontuple] gives it is
    transitive and never holds both ways. *)
Theorem version_lt_transitive u v w :
  compare_versions Lt u v = inr true ->
  compare_versions Lt v w = inr true ->
  compare_versions Lt u w = inr true /\
  compare_versions Lt v u = inr false.
Proof.
  unfold compare_versions.
  destruct (versiontuple u) as [e|a]; [discriminate|].
  destruct (versiontuple v) as [e|b]; [discriminate|].
  destruct (versiontuple w) as [e|c]; [discriminate|].
  intros [= Hab] [= Hbc].
  rewrite (tuple_lt_trans _ _ _ Hab Hbc), (tuple_lt_asym _ _ Hab).
  split; reflexivity.
Qed.

Lemma version_lt_transitive_witness :
  compare_versions Lt "2.9.5" "2.100" = inr true.
Proof.
  exact (proj1 (version_lt_transitive "2.9.5" "2.90.0" "2.100"
                  eq_refl eq_refl)).
Defined.

(** X14.  Two version strings that [versiontuple] accepts are in exactly
    one of three relations: the first is [<] the second, or they are
    [==], or the first is [>] the second; and [==] holds exactly when
    the two tuples are the same list of integers. *)
Theorem version_trichotomy v w a b :
  versiontuple v = inr a ->
  versiontuple w = inr b ->
  (compare_versions Eq v w = inr true <-> a = b) /\
  ((compare_versions Lt v w = inr true /\
    compare_versions Eq v w = inr false /\
    compare_versions Gt v w = inr false) \/
   (compare_versions Lt v w = inr false /\
    compare_versions Eq v w = inr true /\
    compare_versions Gt v w = inr false) \/
   (compare_versions Lt v w = inr false /\
    compare_versions Eq v w = inr false /\
    compare_versions Gt v w = inr true)).
Proof.
  intros Ha Hb. unfold compare_versions. rewrite Ha, Hb.
  rewrite tuple_gt_lt.
  split.
  - rewrite <- tuple_eq_iff. split; [intros [= ->]; reflexivity|intros ->; reflexivity].
  - destruct (tuple_lt_total a b) as [H|[->|H]].
    + left. rewrite H, (tuple_lt_asym _ _ H).
      destruct (tuple_richcompare Eq a b) eqn:He; [|auto].
      apply tuple_eq_iff in He. subst.
      rewrite tuple_richcompare_refl_lt in H. discriminate.
    + right; left.
      rewrite tuple_richcompare_refl_lt, tuple_richcompare_refl_eq. auto.
    + right; right. rewrite H, (tuple_lt_asym _ _ H).
      destruct (tuple_richcompare Eq a b) eqn:He; [|auto].
      apply tuple_eq_iff in He. subst.
      rewrite tuple_richcompare_refl_lt in H. discriminate.
Qed.

Lemma version_trichotomy_witness :
  compare_versions Eq "2.090.0" "2.90.0" = inr true <-> [2; 90; 0] = [2; 90; 0].
Proof.
  exact (proj1 (version_trichotomy "2.090.0" "2.90.0" [2; 90; 0] [2; 90; 0]
                  eq_refl eq_refl)).
Defined.

(* ===================================================================== *)
(** ** Further properties of the dependency check *)
(* ===================================================================== *)

Section Outcomes.

Variable env : Env.

Lemma compare_versions_required t :
  versiontuple (sagemaker_version env) = inr t ->
  compare_versions Lt (sagemaker_version env) required_version
    = inr (older_than_2_90_0 t).
Proof.
  intros H. unfold compare_versions. rewrite H.
  change (versiontuple required_version) with (@inr exn _ [2; 90; 0]).
  cbv beta iota. rewrite tuple_lt_required. reflexivity.
Qed.

(** The five ways a run of [check_dependencies] can go. *)
Lemma check_dependencies_cases :
  (exists bad,
     versiontuple (sagemaker_version env) = inl (ValueError bad) /\
     check_dependencies env = (inl (ValueError bad), [])) \/
  (compare_versions Lt (sagemaker_version env) required_version = inr false /\
   check_dependencies env = (inr tt, [])) \/
  (compare_versions Lt (sagemaker_version env) required_version = inr true /\
   ((exists e,
       os_popen env (install_command env) = inl e /\
       check_dependencies env =
         (inl (Foreign e),
          [Print (outdated_message env); Popen (install_command env)])) \/
    (exists p,
       os_popen env (install_command env) = inr p /\
       has_kernel env = false /\
       check_dependencies env =
         (inl (AttributeError "kernel"),
          [Print (outdated_message env); Popen (install_command env);
           Print (pipe_output p); Print restarting_message])) \/
    (exists p,
       os_popen env (install_command env) = inr p /\
       has_kernel env = true /\
       check_dependencies env =
         (inr tt,
          [Print (outdated_message env); Popen (install_command env);
           Print (pipe_output p); Print restarting_message;
           DoShutdown true; Print warning_message])))).
Proof.
  destruct (compare_versions Lt (sagemaker_version env) required_version)
    as [e|[|]] eqn:Hc.
  - left. unfold compare_versions in Hc.
    destruct (versiontuple (sagemaker_version env)) as [e'|t] eqn:Hv.
    + injection Hc as ->. unfold versiontuple in Hv.
      destruct (tuple_map_int_value_error _ _ Hv) as (bad & _ & _ & ->).
      exists bad. split; [reflexivity|].
      unfold check_dependencies.
      rewrite (upgrade_if_outdated_raises env (ValueError bad)); [reflexivity|].
      unfold compare_versions, versiontuple. rewrite Hv. reflexivity.
    + change (versiontuple required_version) with (@inr exn _ [2; 90; 0]) in Hc.
      discriminate.
  - right; right. split; [reflexivity|].
    pose proof (upgrade_if_outdated_outdated env Hc) as Hup.
    destruct (os_popen env (install_command env)) as [e|p] eqn:Hp.
    + left. exists e. split; [reflexivity|].
      unfold check_dependencies. rewrite Hup. reflexivity.
    + right. pose proof (check_dependencies_after_upgrade env _ Hup) as Hrun.
      destruct (has_kernel env); [right|left]; exists p; auto.
  - right; left. split; [reflexivity|].
    unfold check_dependencies.
    rewrite (upgrade_if_outdated_current env Hc). reflexivity.
Qed.

End Outcomes.

Lemma upgrade_decision_by_fields env t :
  versiontuple (sagemaker_version env) = inr t ->
  installer_calls (trace (check_dependencies env))
    = (if older_than_2_90_0 t then [install_command env] else []) /\
  (older_than_2_90_0 t = false -> check_dependencies env = (inr tt, [])).
Proof.
  intros Ht. pose proof (compare_versions_required env t Ht) as Hc.
  destruct (check_dependencies_cases env)
    as [(bad & Hv & _)|[[Hc' Hrun]|[Hc' Hrun]]].
  - congruence.
  - rewrite Hc in Hc'. injection Hc' as ->. rewrite Hrun.
    split; [reflexivity|auto].
  - rewrite Hc in Hc'. injection Hc' as ->.
    split; [|discriminate].
    destruct Hrun as [(e & _ & ->)|[(p & _ & _ & ->)|(p & _ & _ & ->)]];
      reflexivity.
Qed.

(** X15.  Whether the installer runs is decided by the leading fields of
    the installed version alone.  It runs exactly when the major is
    below 2; or the major is 2 and there is no minor (the one-field
    version ["2"]) or the minor is below 90; or the version is
    [(2, 90)] with nothing after it or with a negative third field.
    Otherwise the run has no effect.  So ["2"] and ["2.90"] are
    upgraded although ["2.90.0"] is not, and what follows the third
    field never matters. *)
Theorem upgrade_decision env t :
  versiontuple (sagemaker_version env) = inr t ->
  installer_calls (trace (check_dependencies env))
    = (if older_than_2_90_0 t then [install_command env] else []) /\
  (older_than_2_90_0 t = false -> check_dependencies env = (inr tt, [])).
Proof. exact (upgrade_decision_by_fields env t). Qed.

Lemma upgrade_decision_witness :
  installer_calls (trace (check_dependencies (Canned.version_env "2")))
    = ["/usr/bin/python3 -m pip install -U sagemaker==2.90.0"] /\
  installer_calls (trace (check_dependencies (Canned.version_env "2.90")))
    = ["/usr/bin/python3 -m pip install -U sagemaker==2.90.0"] /\
  check_dependencies (Canned.version_env "2.90.0.1") = (inr tt, []).
Proof.
  split; [|split].
  - exact (proj1 (upgrade_decision (Canned.version_env "2") [2] eq_refl)).
  - exact (proj1 (upgrade_decision (Canned.version_env "2.90") [2; 90] eq_refl)).
  - exact (proj2 (upgrade_decision (Canned.version_env "2.90.0.1") [2; 90; 0; 1]
                    eq_refl) eq_refl).
Defined.

(** X16.  The check is monotone in the installed version.  If one host
    passes the check without any effect, so does every host whose
    version is [>=] its version; and if the installer runs on the newer
    of two hosts, it runs on the older one too. *)
Theorem check_is_monotone older newer :
  compare_versions Ge (sagemaker_version newer) (sagemaker_version older)
    = inr true ->
  (check_dependencies older = (inr tt, []) ->
   check_dependencies newer = (inr tt, [])) /\
  (installer_calls (trace (check_dependencies newer))
     = [install_command newer] ->
   installer_calls (trace (check_dependencies older))
     = [install_command older]).
Proof.
  intros Hge. apply compare_versions_ge_lt in Hge.
  unfold compare_versions in Hge.
  destruct (versiontuple (sagemaker_version newer)) as [e|b] eqn:Hb;
    [discriminate|].
  destruct (versiontuple (sagemaker_version older)) as [e|a] eqn:Ha;
    [discriminate|].
  injection Hge as Hba.
  destruct (upgrade_decision_by_fields older a Ha) as [Ho Ho'].
  destruct (upgrade_decision_by_fields newer b Hb) as [Hn Hn'].
  assert (older_than_2_90_0 a = false -> older_than_2_90_0 b = false) as Hmono.
  { rewrite <- !tuple_lt_required. intros Har.
    exact (tuple_ge_trans _ _ _ Hba Har). }
  split.
  - intros Hrun. apply Hn', Hmono.
    destruct (older_than_2_90_0 a); [|reflexivity].
    rewrite Hrun in Ho. discriminate.
  - intros Hinst. rewrite Ho.
    destruct (older_than_2_90_0 a); [reflexivity|].
    rewrite Hn, (Hmono eq_refl) in Hinst. discriminate.
Qed.

Lemma check_is_monotone_witness :
  check_dependencies (Canned.version_env "3.0") = (inr tt, []).
Proof.
  exact (proj1 (check_is_monotone (Canned.version_env "2.90.0")
                  (Canned.version_env "3.0") eq_refl) eq_refl).
Defined.

(** X17.  In every run of [check_dependencies] there is at most one
    installer call and at most one kernel signal.  When the kernel is
    signalled, the run splits around its one installer call and its one
    [do_shutdown(True)], with the installer call first: nothing before
    the installer call, between the two or after the signal is an
    installer call or a signal, and the run returns normally with the
    warning line last.  The function never calls the SageMaker SDK. *)
Theorem restart_only_after_install env :
  let t := trace (check_dependencies env) in
  (installer_calls t = [] \/ installer_calls t = [install_command env]) /\
  (restart_signals t = [] \/ restart_signals t = [true]) /\
  (restart_signals t <> [] ->
   exists before between after,
     t = before ++ Popen (install_command env) :: between
                ++ DoShutdown true :: after /\
     installer_calls before = [] /\ restart_signals before = [] /\
     installer_calls between = [] /\ restart_signals between = [] /\
     installer_calls after = [] /\ restart_signals after = [] /\
     last t = Some (Print warning_message) /\
     result (check_dependencies env) = inr tt) /\
  forallb (fun ev => negb (is_service_call ev)) t = true.
Proof.
  destruct (check_dependencies_cases env)
    as [(bad & _ & ->)|[[_ ->]|[_ [(e & _ & ->)|[(p & _ & _ & ->)|(p & _ & _ & ->)]]]]];
    cbv zeta; cbn [trace snd result fst];
    (split; [auto|]); (split; [auto|]);
    (split; [|reflexivity]);
    try (intros H; contradiction H; reflexivity).
  intros _.
  exists [Print (outdated_message env)],
         [Print (pipe_output p); Print restarting_message],
         [Print warning_message].
  repeat split; reflexivity.
Qed.

Lemma restart_only_after_install_witness :
  exists before between after,
    trace (check_dependencies (Canned.version_env "2.89.1"))
      = before ++ Popen "/usr/bin/python3 -m pip install -U sagemaker==2.90.0"
               :: between ++ DoShutdown true :: after /\
    restart_signals before = [] /\ restart_signals between = [] /\
    restart_signals after = [].
Proof.
  destruct (proj1 (proj2 (proj2 (restart_only_after_install
                                   (Canned.version_env "2.89.1"))))
                  ltac:(discriminate))
    as (before & between & after & Ht & _ & Hb & _ & Hm & _ & Ha & _).
  exists before, between, after. repeat split; assumption.
Defined.

(** X18.  When the installed version is older and [os.popen] raises,
    [check_dependencies] ends with that very exception after the first
    notice: nothing more is printed and the kernel is not signalled. *)
Theorem popen_failure_stops_the_check env e :
  compare_versions Lt (sagemaker_version env) required_version = inr true ->
  os_popen env (install_command env) = inl e ->
  check_dependencies env
    = (inl (Foreign e),
       [Print (outdated_message env); Popen (install_command env)]) /\
  restart_signals (trace (check_dependencies env)) = [].
Proof.
  intros Hc Hp.
  assert (check_dependencies env
          = (inl (Foreign e),
             [Print (outdated_message env); Popen (install_command env)]))
    as Hrun.
  { unfold check_dependencies.
    rewrite (upgrade_if_outdated_outdated env Hc), Hp. reflexivity. }
  rewrite Hrun. split; reflexivity.
Qed.

Lemma popen_failure_stops_the_check_witness :
  result (check_dependencies
            (Canned.env (inl Canned.no_region) "2.89.1"
                        (inl Canned.no_shell) true))
  = inl (Foreign Canned.no_shell).
Proof.
  exact (f_equal fst
           (proj1 (popen_failure_stops_the_check
                     (Canned.env (inl Canned.no_region) "2.89.1"
                                 (inl Canned.no_shell) true)
                     Canned.no_shell eq_refl eq_refl))).
Defined.

(** X19.  When the installed version is older, the pipe opens and there
    is no kernel, [check_dependencies] fails with
    [AttributeError('kernel')] only after the installer has run and its
    output and the restart notice have been printed: the failure comes
    too late to keep the package set untouched. *)
Theorem missing_kernel_fails_after_install env p :
  compare_versions Lt (sagemaker_version env) required_version = inr true ->
  os_popen env (install_command env) = inr p ->
  has_kernel env = false ->
  check_dependencies env
    = (inl (AttributeError "kernel"),
       [Print (outdated_message env); Popen (install_command env);
        Print (pipe_output p); Print restarting_message]) /\
  installer_calls (trace (check_dependencies env)) = [install_command env] /\
  restart_signals (trace (check_dependencies env)) = [].
Proof.
  intros Hc Hp Hk.
  pose proof (upgrade_if_outdated_outdated env Hc) as Hup. rewrite Hp in Hup.
  pose proof (check_dependencies_after_upgrade env _ Hup) as Hrun.
  rewrite Hk in Hrun. rewrite Hrun. repeat split; reflexivity.
Qed.

Lemma missing_kernel_fails_after_install_witness :
  result (check_dependencies
            (InMemory.env [] "2.89.1" "Successfully installed" 0 false))
  = inl (AttributeError "kernel").
Proof.
  exact (f_equal fst
           (proj1 (missing_kernel_fails_after_install
                     (InMemory.env [] "2.89.1" "Successfully installed" 0 false)
                     (InMemory.process "Successfully installed" 0)
                     eq_refl eq_refl eq_refl))).
Defined.

(** X20.  [check_dependencies] returns normally in exactly two
    situations: the installed version is not older than the required
    one; or it is older, [os.popen] returned a pipe, and a kernel is
    there. *)
Theorem check_succeeds_iff env :
  result (check_dependencies env) = inr tt <->
  compare_versions Lt (sagemaker_version env) required_version = inr false \/
  (compare_versions Lt (sagemaker_version env) required_version = inr true /\
   (exists p, os_popen env (install_command env) = inr p) /\
   has_kernel env = true).
Proof.
  destruct (check_dependencies_cases env)
    as [(bad & Hv & Hrun)|[[Hc Hrun]|[Hc [(e & Hp & Hrun)|[(p & Hp & Hk & Hrun)|(p & Hp & Hk & Hrun)]]]]];
    rewrite Hrun; cbn [result fst].
  - split; [discriminate|].
    unfold compare_versions. rewrite Hv. intros [H|[H _]]; discriminate.
  - split; [auto|reflexivity].
  - split; [discriminate|].
    intros [H|(_ & [p Hp'] & _)]; congruence.
  - split; [discriminate|].
    intros [H|(_ & _ & Hk')]; congruence.
  - split; [|reflexivity]. intros _. right. eauto.
Qed.
